(** * Snippetbox: the request pipeline, the helpers and the route table

    A shallow embedding of [cmd/web/main.go], [cmd/web/helpers.go],
    the first-generation handlers and [cmd/web/routes.go], together with
    the properties of the specification that concern them.

    Conventions.  A Go [int] is a [Z] (with the 64-bit range written out
    where [strconv.Atoi] checks it).  A [map[string]T] is a [gmap string T].
    A value of type [any] is a [value].  Code that mutates the response
    writer, the session or a logger threads that state explicitly. *)

From Stdlib Require Import ZArith Ascii String List Lia Bool.
From stdpp Require Import base option list gmap strings pretty.
Import ListNotations.

Local Open Scope string_scope.
Local Open Scope Z_scope.

(** ** [net/http]: the parts of the response writer the code relies on *)

Module Http.

Definition StatusOK : Z := 200.
Definition StatusSeeOther : Z := 303.
Definition StatusBadRequest : Z := 400.
Definition StatusNotFound : Z := 404.
Definition StatusMethodNotAllowed : Z := 405.
Definition StatusInternalServerError : Z := 500.

Definition MethodGet : string := "GET".
Definition MethodPost : string := "POST".

(** [http.StatusText]: the empty string for a code it does not know. *)
Definition StatusText (code : Z) : string :=
  match code with
  | 100 => "Continue"
  | 101 => "Switching Protocols"
  | 102 => "Processing"
  | 103 => "Early Hints"
  | 200 => "OK"
  | 201 => "Created"
  | 202 => "Accepted"
  | 203 => "Non-Authoritative Information"
  | 204 => "No Content"
  | 205 => "Reset Content"
  | 206 => "Partial Content"
  | 207 => "Multi-Status"
  | 208 => "Already Reported"
  | 226 => "IM Used"
  | 300 => "Multiple Choices"
  | 301 => "Moved Permanently"
  | 302 => "Found"
  | 303 => "See Other"
  | 304 => "Not Modified"
  | 305 => "Use Proxy"
  | 307 => "Temporary Redirect"
  | 308 => "Permanent Redirect"
  | 400 => "Bad Request"
  | 401 => "Unauthorized"
  | 402 => "Payment Required"
  | 403 => "Forbidden"
  | 404 => "Not Found"
  | 405 => "Method Not Allowed"
  | 406 => "Not Acceptable"
  | 407 => "Proxy Authentication Required"
  | 408 => "Request Timeout"
  | 409 => "Conflict"
  | 410 => "Gone"
  | 411 => "Length Required"
  | 412 => "Precondition Failed"
  | 413 => "Request Entity Too Large"
  | 414 => "Request URI Too Long"
  | 415 => "Unsupported Media Type"
  | 416 => "Requested Range Not Satisfiable"
  | 417 => "Expectation Failed"
  | 418 => "I'm a teapot"
  | 421 => "Misdirected Request"
  | 422 => "Unprocessable Entity"
  | 423 => "Locked"
  | 424 => "Failed Dependency"
  | 425 => "Too Early"
  | 426 => "Upgrade Required"
  | 428 => "Precondition Required"
  | 429 => "Too Many Requests"
  | 431 => "Request Header Fields Too Large"
  | 451 => "Unavailable For Legal Reasons"
  | 500 => "Internal Server Error"
  | 501 => "Not Implemented"
  | 502 => "Bad Gateway"
  | 503 => "Service Unavailable"
  | 504 => "Gateway Timeout"
  | 505 => "HTTP Version Not Supported"
  | 506 => "Variant Also Negotiates"
  | 507 => "Insufficient Storage"
  | 508 => "Loop Detected"
  | 510 => "Not Extended"
  | 511 => "Network Authentication Required"
  | _ => ""
  end.

(** An [http.Header] is a [map[string][]string]. *)
Abbreviation Header := (gmap string (list string)).

(** What has left for the client: the status line with the headers as
    they stood when it was sent, and the body bytes written so far. *)
Record Sent := mkSent {
  sentStatus : Z;
  sentHeader : Header
}.

(** The response writer.  [header] is the map handed out by
    [w.Header()]; [sent] is [None] until the status line goes out. *)
Record ResponseWriter := mkResponseWriter {
  header : Header;
  sent : option Sent;
  body : string
}.

Definition newResponseWriter : ResponseWriter :=
  {| header := ∅; sent := None; body := "" |}.

Definition HeaderSet (k v : string) (w : ResponseWriter) : ResponseWriter :=
  {| header := <[k := [v]]> (header w); sent := sent w; body := body w |}.

Definition HeaderDel (k : string) (w : ResponseWriter) : ResponseWriter :=
  {| header := delete k (header w); sent := sent w; body := body w |}.

(** [w.WriteHeader(code)]: the first call fixes status and headers, a
    later one is ignored (the server only logs it as superfluous).
    This is the behaviour for the final status codes that carry a body,
    the ones the code under study passes (200, 4xx, 5xx); informational
    1xx codes, the bodiless 204 and 304, and codes outside 100..999, on
    which the server panics, are not modelled. *)
Definition WriteHeader (code : Z) (w : ResponseWriter) : ResponseWriter :=
  match sent w with
  | Some _ => w
  | None =>
      {| header := header w;
         sent := Some {| sentStatus := code; sentHeader := header w |};
         body := body w |}
  end.

(** [w.Write(b)]: sends [200 OK] first when no status went out yet. *)
Definition Write (b : string) (w : ResponseWriter) : ResponseWriter :=
  let w' := WriteHeader StatusOK w in
  {| header := header w'; sent := sent w'; body := body w' +:+ b |}.

Definition newline : string := String (ascii_of_nat 10) "".

(** [http.Error(w, error, code)], as of Go 1.23, which first deletes a
    [Content-Length] set earlier; older versions leave that header
    alone and are the same otherwise. *)
Definition Error (msg : string) (code : Z) (w : ResponseWriter)
  : ResponseWriter :=
  let w := HeaderDel "Content-Length" w in
  let w := HeaderSet "Content-Type" "text/plain; charset=utf-8" w in
  let w := HeaderSet "X-Content-Type-Options" "nosniff" w in
  let w := WriteHeader code w in
  Write (msg +:+ newline) w.

(** [http.NotFound(w, r)]. *)
Definition NotFound (w : ResponseWriter) : ResponseWriter :=
  Error "404 page not found" StatusNotFound w.

Definition status (w : ResponseWriter) : option Z :=
  sentStatus <$> sent w.

End Http.

(** ** Dynamic values, request contexts and sessions *)

(** A Go value behind [any]: the dynamic types that the application
    stores in contexts and sessions, and [VOther] for every other type. *)
Inductive value :=
| VBool (b : bool)
| VString (s : string)
| VInt (n : Z)
| VOther (type_name : string).

(** The type assertion [v.(bool)] in its two-result form. *)
Definition assert_bool (v : option value) : bool * bool :=
  match v with
  | Some (VBool b) => (b, true)
  | _ => (false, false)
  end.

(** The type assertion [v.(string)] in its two-result form. *)
Definition assert_string (v : option value) : string * bool :=
  match v with
  | Some (VString s) => (s, true)
  | _ => ("", false)
  end.

(** A context key is compared as an interface value: by dynamic type and
    by value. *)
Record ctxKey := mkCtxKey { keyType : string; keyName : string }.

#[global] Instance ctxKey_eq_dec : EqDecision ctxKey.
Proof. solve_decision. Defined.

(** A [context.Context] holding values: the pairs attached with
    [context.WithValue], the latest one first. *)
Definition Context := list (ctxKey * value).

(** [ctx.Value(key)]: the value of the innermost pair with that key;
    [None] stands for the [nil] interface. *)
Fixpoint Value (ctx : Context) (key : ctxKey) : option value :=
  match ctx with
  | [] => None
  | (k, v) :: rest => if decide (k = key) then Some v else Value rest key
  end.

Definition WithValue (ctx : Context) (key : ctxKey) (v : value) : Context :=
  (key, v) :: ctx.

(** The session data that [scs] keeps for one request. *)
Abbreviation Session := (gmap string value).

(** [sessionManager.Pop]: removes the key and returns what it held. *)
Definition Pop (s : Session) (key : string) : option value * Session :=
  match s !! key with
  | Some v => (Some v, delete key s)
  | None => (None, s)
  end.

(** [sessionManager.PopString]: the empty string when the key is absent
    or holds no string; the key is removed in any case. *)
Definition PopString (s : Session) (key : string) : string * Session :=
  let '(v, s') := Pop s key in
  (fst (assert_string v), s').

(** An [*http.Request], as far as the code under study reads it. *)
Record Request := mkRequest {
  Method : string;
  URLPath : string;
  URLQuery : list (string * string);
  reqContext : Context;
  csrfToken : string
}.

(** [r.URL.Query().Get(key)]: the first value of the key, or [""]. *)
Fixpoint QueryGet (q : list (string * string)) (key : string) : string :=
  match q with
  | [] => ""
  | (k, v) :: rest => if decide (k = key) then v else QueryGet rest key
  end.

(** ** [strconv.Atoi] on a 64-bit platform *)

Module Strconv.

Inductive NumError := ErrSyntax | ErrRange.

Definition maxInt : Z := 2 ^ 63 - 1.
Definition minInt : Z := - 2 ^ 63.

Definition isDigit (c : ascii) : bool :=
  let n := Z.of_nat (nat_of_ascii c) in (48 <=? n) && (n <=? 57).

Definition digitVal (c : ascii) : Z := Z.of_nat (nat_of_ascii c) - 48.

(** The digit loop: [None] at the first byte that is no decimal digit. *)
Fixpoint digits (s : string) (acc : Z) : option Z :=
  match s with
  | EmptyString => Some acc
  | String c rest =>
      if isDigit c then digits rest (acc * 10 + digitVal c) else None
  end.

(** [strconv.Atoi(s)]: an optional sign, then one or more decimal
    digits, the value within the range of [int].  As in Go the result
    is a pair of the number and the error; a syntax error comes with
    0, a range error with the nearest bound. *)
Definition Atoi (s : string) : Z * option NumError :=
  match s with
  | EmptyString => (0, Some ErrSyntax)
  | String c rest =>
      let neg := bool_decide (c = "-"%char) in
      let ds := if bool_decide (c = "-"%char) || bool_decide (c = "+"%char)
                then rest else s in
      match ds with
      | EmptyString => (0, Some ErrSyntax)
      | _ =>
          match digits ds 0 with
          | None => (0, Some ErrSyntax)
          | Some n =>
              if neg then
                if n <=? - minInt then (- n, None) else (minInt, Some ErrRange)
              else
                if n <=? maxInt then (n, None) else (maxInt, Some ErrRange)
          end
      end
  end.

End Strconv.

(** ** The first-generation handlers ([home], [snippetView],
       [snippetCreate] as plain functions on the default mux) *)

Module Handlers.
Import Http.

Definition home (w : ResponseWriter) (r : Request) : ResponseWriter :=
  if bool_decide (URLPath r ≠ "/") then NotFound w
  else Write "Hey from snippetbox" w.

(** [fmt.Fprint] of a string followed by an [int]: no space is put
    between two operands when one of them is a string, and the verb in
    the text is not interpreted. *)
Definition snippetViewText (id : Z) : string :=
  "Display a specific snippet with ID %d..." +:+ pretty id.

Definition snippetView (w : ResponseWriter) (r : Request) : ResponseWriter :=
  let '(id, err) := Strconv.Atoi (QueryGet (URLQuery r) "id") in
  if bool_decide (err ≠ None) || (id <? 1) then NotFound w
  else Write (snippetViewText id) w.

Definition snippetCreate (w : ResponseWriter) (r : Request) : ResponseWriter :=
  if bool_decide (Method r ≠ MethodPost) then
    let w := HeaderSet "Allow" MethodPost w in
    Error "Method not allowed" StatusMethodNotAllowed w
  else Write "This will be used to create a snippet" w.

End Handlers.

(** ** The application and its helpers ([helpers.go]) *)

(** [time.Time], of which the helpers read the year only. *)
Record Time := mkTime { Year : Z }.

(** [templateData].  The struct is declared outside the files at hand;
    the four fields that [newTemplateData] names are kept as they are,
    the remaining ones as a map from field name to value, [Others],
    which holds the fields that differ from their zero value.  A
    composite literal leaves every field it does not name at its zero
    value, so it leaves [Others] empty. *)
Record templateData := mkTemplateData {
  Flash : string;
  CurrentYear : Z;
  IsAuthenticated : bool;
  CSRFToken : string;
  Others : gmap string value
}.

(** A parsed template set.  [ExecuteTemplate name data] gives the bytes
    it wrote to its writer and the error it returned, if any: a failing
    execution may have written part of the page already. *)
Record Template := mkTemplate {
  ExecuteTemplate : string -> templateData -> string * option string
}.

(** A [*log.Logger]: the messages handed to it, oldest first.  The
    prefix and the time stamp a logger puts before a message are left
    out. *)
Definition Logger := list string.

(** [logger.Output(calldepth, s)]. *)
Definition Output (l : Logger) (s : string) : Logger := (l ++ [s])%list.

(** The fields of [application] that the helpers use. *)
Record application := mkApplication {
  errorLog : Logger;
  infoLog : Logger;
  templateCache : gmap string Template
}.

Definition withErrorLog (app : application) (l : Logger) : application :=
  {| errorLog := l; infoLog := infoLog app;
     templateCache := templateCache app |}.

Section Helpers.
Import Http.

(** The key under which the identity middleware files the flag; the
    constant is declared outside the files at hand. *)
Variable isAuthenticatedContextKey : ctxKey.

(** [isAuthenticated]. *)
Definition isAuthenticated (r : Request) : bool :=
  let '(isAuth, ok) :=
    assert_bool (Value (reqContext r) isAuthenticatedContextKey) in
  if negb ok then false else isAuth.

(** [nosurf.Token(r)]. *)
Definition Token (r : Request) : string := csrfToken r.

(** [newTemplateData]: besides the envelope it yields the session,
    from which the flash message has been taken out. *)
Definition newTemplateData (now : Time) (sess : Session) (r : Request)
  : templateData * Session :=
  let '(flash, sess') := PopString sess "flash" in
  ({| Flash := flash;
      CurrentYear := Year now;
      IsAuthenticated := isAuthenticated r;
      CSRFToken := Token r;
      Others := ∅ |}, sess').

(** [serverError]; [stack] is what [debug.Stack()] returns. *)
Definition serverError (stack : string) (app : application)
    (w : ResponseWriter) (err : string) : application * ResponseWriter :=
  let trace := err +:+ newline +:+ stack in
  let app := withErrorLog app (Output (errorLog app) trace) in
  (app, Error (StatusText StatusInternalServerError)
              StatusInternalServerError w).

(** [clientError]. *)
Definition clientError (w : ResponseWriter) (status : Z) : ResponseWriter :=
  Error (StatusText status) status w.

(** [notFound]. *)
Definition notFound (w : ResponseWriter) : ResponseWriter :=
  clientError w StatusNotFound.

(** [render]. *)
Definition render (stack : string) (app : application)
    (w : ResponseWriter) (status : Z) (page : string) (data : templateData)
  : application * ResponseWriter :=
  match templateCache app !! page with
  | None =>
      let err := "the template " +:+ page +:+ " does not exist" in
      serverError stack app w err
  | Some ts =>
      let '(buf, err) := ExecuteTemplate ts "base" data in
      match err with
      | Some e => serverError stack app w e
      | None =>
          let w := WriteHeader status w in
          (app, Write buf w)
      end
  end.

End Helpers.

(** ** [justinas/alice]: middleware chains *)

(** The middleware constructors that [routes] names. *)
Inductive Middleware :=
| recoverPanic
| logRequest
| secureHeaders
| LoadAndSave
| noSurf
| authenticate
| requireAuthentication.

#[global] Instance Middleware_eq_dec : EqDecision Middleware.
Proof. solve_decision. Defined.

(** An [http.Handler] built by wrapping: [Wrap m next] is the handler
    that the constructor [m] returns for [next]; it runs first and
    decides whether [next] runs. *)
Inductive Handler (E : Type) :=
| Leaf (e : E)
| Wrap (m : Middleware) (next : Handler E).

Arguments Leaf {E} e.
Arguments Wrap {E} m next.

Module Alice.

(** An [alice.Chain] is the slice of its constructors. *)
Definition Chain := list Middleware.

Definition New (constructors : list Middleware) : Chain :=
  ([] ++ constructors)%list.

Definition Append (c : Chain) (constructors : list Middleware) : Chain :=
  (c ++ constructors)%list.

(** [c.Then(h)]: the loop applies the constructors from the last to
    the first, [h = c.constructors[len-1-i](h)]. *)
Definition Then {E} (c : Chain) (h : Handler E) : Handler E :=
  fold_left (fun h m => Wrap m h) (rev c) h.

Definition ThenFunc {E} (c : Chain) (fn : E) : Handler E :=
  Then c (Leaf fn).

End Alice.

(** The middlewares a request goes through, outermost first, and the
    handler they enclose. *)
Fixpoint unwrap {E} (h : Handler E) : list Middleware * E :=
  match h with
  | Leaf e => ([], e)
  | Wrap m next => let '(ms, e) := unwrap next in (m :: ms, e)
  end.

(** ** [julienschmidt/httprouter]: registration and lookup *)

(** The handlers that [routes] registers: methods of the application,
    the file server over the embedded files, and the closure that calls
    [app.notFound]. *)
Inductive AppHandler :=
| home | snippetView | userSignup | userSignupPost | userLoginPost
| userLogin | snippetCreatePost | snippetCreate | userLogoutPost.

Inductive Endpoint :=
| HandlerFunc (f : AppHandler)
| FileServer
| NotFoundFunc.

#[global] Instance AppHandler_eq_dec : EqDecision AppHandler.
Proof. solve_decision. Defined.
#[global] Instance Endpoint_eq_dec : EqDecision Endpoint.
Proof. solve_decision. Defined.

Module HttpRouter.

Record Route := mkRoute {
  routeMethod : string;
  routePath : string;
  routeHandler : Handler Endpoint
}.

Record Router := mkRouter {
  routes : list Route;
  NotFound : option (Handler Endpoint)
}.

Definition New : Router := {| routes := []; NotFound := None |}.

Definition setNotFound (h : Handler Endpoint) (rt : Router) : Router :=
  {| routes := routes rt; NotFound := Some h |}.

(** [router.Handler(method, path, handler)]. *)
Definition Handle (method path : string) (h : Handler Endpoint)
    (rt : Router) : Router :=
  {| routes := (routes rt ++ [mkRoute method path h])%list;
     NotFound := NotFound rt |}.

(** [strings.Split(s, "/")]. *)
Fixpoint split (s : string) : list string :=
  match s with
  | EmptyString => [""]
  | String c rest =>
      let segs := split rest in
      if bool_decide (c = "/"%char) then "" :: segs
      else match segs with
           | seg :: more => String c seg :: more
           | [] => [String c ""]
           end
  end.

(** The segments of a path that starts with a slash. *)
Definition segments (path : string) : list string := tail (split path).

(** A pattern segment [:name] takes one non-empty path segment, a
    final [*name] takes whatever is left after the slash, any other
    segment takes itself. *)
Fixpoint matchSegments (pat path : list string) : bool :=
  match pat, path with
  | [], [] => true
  | p :: pat', s :: path' =>
      match p with
      | String ":" _ => negb (bool_decide (s = "")) && matchSegments pat' path'
      | String "*" _ => true
      | _ => bool_decide (p = s) && matchSegments pat' path'
      end
  | _, _ => false
  end.

Definition matches (method path : string) (r : Route) : bool :=
  bool_decide (routeMethod r = method)
  && matchSegments (segments (routePath r)) (segments path).

(** The route serving a request, if one is registered for it.  A
    request without one is answered by the router itself (a redirect
    to a corrected path, 405, or the [NotFound] handler). *)
Definition lookup (rt : Router) (method path : string) : option Route :=
  find (matches method path) (routes rt).

End HttpRouter.

(** ** [routes.go] *)

Module Routes.
Import Http HttpRouter.

Definition routes : Handler Router :=
  let router := HttpRouter.New in
  let router := setNotFound (Leaf NotFoundFunc) router in
  let fileServer := Leaf FileServer in
  let router := Handle MethodGet "/static/*filepath" fileServer router in
  let dynamic := Alice.New [LoadAndSave; noSurf; authenticate] in
  let router := Handle MethodGet "/" (Alice.ThenFunc dynamic (HandlerFunc home)) router in
  let router := Handle MethodGet "/snippet/view/:id" (Alice.ThenFunc dynamic (HandlerFunc snippetView)) router in
  let router := Handle MethodGet "/user/signup" (Alice.ThenFunc dynamic (HandlerFunc userSignup)) router in
  let router := Handle MethodPost "/user/signup" (Alice.ThenFunc dynamic (HandlerFunc userSignupPost)) router in
  let router := Handle MethodPost "/user/login" (Alice.ThenFunc dynamic (HandlerFunc userLoginPost)) router in
  let router := Handle MethodGet "/user/login" (Alice.ThenFunc dynamic (HandlerFunc userLogin)) router in
  let protected := Alice.Append dynamic [requireAuthentication] in
  let router := Handle MethodPost "/snippet/create" (Alice.ThenFunc protected (HandlerFunc snippetCreatePost)) router in
  let router := Handle MethodGet "/snippet/create" (Alice.ThenFunc protected (HandlerFunc snippetCreate)) router in
  let router := Handle MethodPost "/user/logout" (Alice.ThenFunc protected (HandlerFunc userLogoutPost)) router in
  let standard := Alice.New [recoverPanic; logRequest; secureHeaders] in
  Alice.Then standard (Leaf router).

(** The router inside the standard chain. *)
Definition router : Router := snd (unwrap routes).

(** Where a request ends up. *)
Inductive Target :=
| ToHandler (e : Endpoint)
| RouterReply.

(** The middlewares that enclose the handling of a request, in the
    order in which they are entered, and where the request ends up
    when each of them forwards it. *)
Definition pipeline (method path : string) : list Middleware * Target :=
  let '(outer, rt) := unwrap routes in
  match lookup rt method path with
  | Some r =>
      let '(inner, e) := unwrap (routeHandler r) in
      ((outer ++ inner)%list, ToHandler e)
  | None => (outer, RouterReply)
  end.

(** Whether a registered handler sits behind [requireAuthentication]. *)
Definition requiresAuth (h : Handler Endpoint) : bool :=
  bool_decide (requireAuthentication ∈ fst (unwrap h)).

End Routes.

(** ** [http.FileServer] over an embedded file system *)

Module FileServer.

(** A file tree such as [ui.Files]: its content is fixed when the
    binary is built and is not known here. *)
#[warnings="-register-all"]
Inductive Node :=
| File (content : string)
| Dir (entries : list (string * Node)).

Fixpoint assoc {A} (name : string) (es : list (string * A)) : option A :=
  match es with
  | [] => None
  | (n, a) :: rest => if bool_decide (n = name) then Some a else assoc name rest
  end.

(** [fs.Open] of a cleaned name, given by its elements. *)
Fixpoint open (n : Node) (name : list string) : option Node :=
  match name with
  | [] => Some n
  | s :: rest =>
      match n with
      | Dir es =>
          match assoc s es with
          | Some child => open child rest
          | None => None
          end
      | File _ => None
      end
  end.

(** [path.Clean] of a rooted path, on its elements: empty and [.]
    elements go, [..] removes the element before it. *)
Fixpoint cleanFrom (acc : list string) (segs : list string) : list string :=
  match segs with
  | [] => rev acc
  | s :: rest =>
      if bool_decide (s = "") || bool_decide (s = ".") then cleanFrom acc rest
      else if bool_decide (s = "..") then cleanFrom (tail acc) rest
      else cleanFrom (s :: acc) rest
  end.

Definition Clean (path : string) : list string :=
  cleanFrom [] (HttpRouter.split path).

(** [path.Base]. *)
Fixpoint lastElement (segs : list string) (found : option string)
  : option string :=
  match segs with
  | [] => found
  | s :: rest =>
      lastElement rest (if bool_decide (s = "") then found else Some s)
  end.

Definition Base (path : string) : string :=
  match lastElement (HttpRouter.split path) None with
  | Some seg => seg
  | None => if bool_decide (path = "") then "." else "/"
  end.

Fixpoint hasSuffix (s suffix : string) : bool :=
  bool_decide (s = suffix) ||
  match s with
  | EmptyString => false
  | String _ rest => hasSuffix rest suffix
  end.

Definition indexPage : string := "/index.html".

Inductive Reply :=
| MovedPermanently (location : string)
| NotFound
| Listing (names : list string)
| Content (data : string).

(** The entry names as [dirList] prints them: a directory followed by
    a slash. *)
Definition listed (es : list (string * Node)) : list string :=
  map (fun e => match snd e with
                | Dir _ => fst e +:+ "/"
                | File _ => fst e
                end) es.

(** [fileHandler.ServeHTTP] with [serveFile(w, r, fs, path.Clean(upath),
    true)], for a request path that starts with a slash.  Redirects,
    404 and listings depend on the path alone for an embedded tree
    (its files carry no modification time).  [Content] is the answer to
    a request without [Range] and conditional headers; with them
    [serveContent] may answer 206, 416, 304 or 412 instead, which is
    not modelled. *)
Definition serveFile (root : Node) (urlPath : string) : Reply :=
  if hasSuffix urlPath indexPage then MovedPermanently "./"
  else
    match open root (Clean urlPath) with
    | None => NotFound
    | Some (File data) =>
        if hasSuffix urlPath "/" then MovedPermanently ("../" +:+ Base urlPath)
        else Content data
    | Some (Dir es) =>
        if negb (hasSuffix urlPath "/") then
          MovedPermanently (Base urlPath +:+ "/")
        else
          match assoc "index.html" es with
          | Some (File data) => Content data
          | Some (Dir es') => Listing (listed es')
          | None => Listing (listed es)
          end
    end.

Definition replyStatus (r : Reply) : Z :=
  match r with
  | MovedPermanently _ => 301
  | NotFound => Http.StatusNotFound
  | Listing _ | Content _ => Http.StatusOK
  end.

End FileServer.

(** ** [crypto/tls] configuration and [main] *)

Module Tls.

Inductive CurveID := CurveP256 | CurveP384 | CurveP521 | X25519.

#[global] Instance CurveID_eq_dec : EqDecision CurveID.
Proof. solve_decision. Defined.

Definition VersionTLS10 : Z := 769.
Definition VersionTLS11 : Z := 770.
Definition VersionTLS12 : Z := 771.
Definition VersionTLS13 : Z := 772.

(** The fields of [tls.Config] that matter here; a field that a
    literal leaves out holds its zero value. *)
Record Config := mkConfig {
  CurvePreferences : list CurveID;
  MinVersion : Z;
  MaxVersion : Z;
  CipherSuites : list Z
}.

(** A curve is offered when it is among the preferences; an empty
    list stands for the library's default set. *)
Definition supportsCurve (c : Config) (id : CurveID) : bool :=
  match CurvePreferences c with
  | [] => true
  | prefs => bool_decide (id ∈ prefs)
  end.

(** The bounds that the configuration itself puts on the protocol
    version; a zero bound leaves the choice to the library. *)
Definition versionWithinBounds (c : Config) (v : Z) : bool :=
  ((MinVersion c =? 0) || (MinVersion c <=? v))
  && ((MaxVersion c =? 0) || (v <=? MaxVersion c)).

End Tls.

Module Main.

Record Server := mkServer {
  Addr : string;
  Handler : Handler HttpRouter.Router;
  TLSConfig : Tls.Config;
  IdleTimeout : Z;
  ReadTimeout : Z;
  WriteTimeout : Z
}.

Definition Second : Z := 1000000000.
Definition Minute : Z := 60 * Second.

(** How [main] ends: with [errorLog.Fatal] during start-up, or in the
    listening call. *)
Inductive Run :=
| Fatal (err : string)
| ListenAndServe (srv : Server)
| ListenAndServeTLS (srv : Server) (certFile keyFile : string).

Definition tlsConfig : Tls.Config :=
  {| Tls.CurvePreferences := [Tls.X25519; Tls.CurveP256];
     Tls.MinVersion := 0;
     Tls.MaxVersion := Tls.VersionTLS13;
     Tls.CipherSuites := [] |}.

(** [main]: [addr] is the value of the [-addr] flag; [db] and [cache]
    are the errors, if any, of [openDB] and [newTemplateCache]. *)
Definition main (addr : string) (db cache : option string) : Run :=
  match db with
  | Some err => Fatal err
  | None =>
      match cache with
      | Some err => Fatal err
      | None =>
          let srv := {| Addr := addr;
                        Handler := Routes.routes;
                        TLSConfig := tlsConfig;
                        IdleTimeout := Minute;
                        ReadTimeout := 5 * Second;
                        WriteTimeout := 10 * Second |} in
          ListenAndServeTLS srv "./tls/cert.pem" "./tls/key.pem"
      end
  end.

End Main.

(** ** The middlewares ([middleware.go] is not among the files at hand) *)

Module Pipeline.
Import Http.

(** Modelled from the spec: the session store, which the missing
    session middleware consults.  It answers for the cookie of a request
    with the stored session, with none (a new anonymous session is
    started), or with an error. *)
Inductive SessionLoad :=
| Loaded (s : Session)
| NoSession
| StoreError (err : string).

(** One request on its way through the chain: the request with its
    context, the token submitted with the form, the protocol, what the
    session store holds for it, the session once loaded, the response
    writer and the application (for its loggers). *)
Record Exchange := mkExchange {
  request : Request;
  formToken : string;
  proto : string;
  stored : SessionLoad;
  session : Session;
  writer : ResponseWriter;
  app : application
}.

Definition withRequest (x : Exchange) (r : Request) : Exchange :=
  {| request := r; formToken := formToken x; proto := proto x;
     stored := stored x; session := session x; writer := writer x;
     app := app x |}.

Definition withSession (x : Exchange) (s : Session) : Exchange :=
  {| request := request x; formToken := formToken x; proto := proto x;
     stored := stored x; session := s; writer := writer x; app := app x |}.

Definition withWriter (x : Exchange) (w : ResponseWriter) : Exchange :=
  {| request := request x; formToken := formToken x; proto := proto x;
     stored := stored x; session := session x; writer := w; app := app x |}.

Definition withApp (x : Exchange) (a : application) : Exchange :=
  {| request := request x; formToken := formToken x; proto := proto x;
     stored := stored x; session := session x; writer := writer x;
     app := a |}.

Definition withContext (r : Request) (ctx : Context) : Request :=
  {| Method := Method r; URLPath := URLPath r; URLQuery := URLQuery r;
     reqContext := ctx; csrfToken := csrfToken r |}.

(** A middleware either answers the request itself or hands it on. *)
Inductive Step :=
| Answered (x : Exchange)
| Forwarded (x : Exchange).

(** Modelled from the spec: the login page of the missing
    authentication requirement, the route [GET /user/login]. *)
Definition loginPage : string := "/user/login".

(** Modelled from the spec: the redirect of the missing authentication
    requirement, a [Location] header with a 3xx status.  The
    specification names no code; 303 See Other stands for it. *)
Definition Redirect (url : string) (w : ResponseWriter) : ResponseWriter :=
  WriteHeader StatusSeeOther (HeaderSet "Location" url w).

(** Modelled from the spec: the methods that the missing CSRF validation
    lets pass, those that change no state; every other method is
    state-changing. *)
Definition safeMethod (m : string) : bool :=
  bool_decide (m ∈ ["GET"; "HEAD"; "OPTIONS"; "TRACE"]).

Section Middlewares.

Variable isAuthenticatedContextKey : ctxKey.
(** The session keys of the user id and of the path to come back to. *)
Variable userIDKey pathKey : string.
(** The static security headers. *)
Variable staticHeaders : list (string * string).
(** The user store: whether a user with that id exists. *)
Variable userExists : Z -> bool.
(** The stack trace a server error is logged with. *)
Variable stack : string.

(** Modelled from the spec: the seven middlewares of [middleware.go],
    which is missing.  Section 4.1 of the specification, step by
    step: recovery acts only on a fault further in; logging records
    method, URL and protocol; the security headers are set
    unconditionally; the session is loaded for the cookie of the
    request or started anonymous, a store error being a server
    error; a state-changing method needs the per-session token in
    the form and gets 400 on a mismatch; the identity step looks up
    the user id of the session, attaches the flag when the user
    exists and drops the stale key otherwise; the authentication
    requirement redirects an anonymous request to the login page
    after filing the requested path, and forwards any other. *)
Definition runMiddleware (m : Middleware) (x : Exchange) : Step :=
  let r := request x in
  match m with
  | recoverPanic => Forwarded x
  | logRequest =>
      let line := Method r +:+ " " +:+ URLPath r +:+ " " +:+ proto x in
      let a := app x in
      Forwarded (withApp x {| errorLog := errorLog a;
                              infoLog := Output (infoLog a) line;
                              templateCache := templateCache a |})
  | secureHeaders =>
      Forwarded (withWriter x
        (fold_left (fun w kv => HeaderSet (fst kv) (snd kv) w)
                   staticHeaders (writer x)))
  | LoadAndSave =>
      match stored x with
      | StoreError err =>
          let '(a, w) := serverError stack (app x) (writer x) err in
          Answered (withWriter (withApp x a) w)
      | Loaded s => Forwarded (withSession x s)
      | NoSession => Forwarded (withSession x ∅)
      end
  | noSurf =>
      if negb (safeMethod (Method r))
         && negb (bool_decide (formToken x = csrfToken r))
      then Answered (withWriter x (clientError (writer x) StatusBadRequest))
      else Forwarded x
  | authenticate =>
      match session x !! userIDKey with
      | Some (VInt id) =>
          if userExists id then
            Forwarded (withRequest x
              (withContext r (WithValue (reqContext r)
                                isAuthenticatedContextKey (VBool true))))
          else Forwarded (withSession x (delete userIDKey (session x)))
      | _ => Forwarded x
      end
  | requireAuthentication =>
      if negb (isAuthenticated isAuthenticatedContextKey r) then
        let x := withSession x
                   (<[pathKey := VString (URLPath r)]> (session x)) in
        Answered (withWriter x (Redirect loginPage (writer x)))
      else Forwarded x
  end.

(** A wrapped handler: the middlewares run from the outside in until
    one answers or the enclosed handler is reached. *)
Fixpoint runHandler {E} (h : Handler E) (x : Exchange) : Exchange + E * Exchange :=
  match h with
  | Leaf e => inr (e, x)
  | Wrap m next =>
      match runMiddleware m x with
      | Answered x' => inl x'
      | Forwarded x' => runHandler next x'
      end
  end.

(** How the serving of a request ends: a middleware answered it,
    the router answered it itself, or a registered handler was
    reached. *)
Inductive Served :=
| ByMiddleware (x : Exchange)
| ByRouter (x : Exchange)
| Reached (e : Endpoint) (x : Exchange).

(** The handler that [routes] returns, run on a request. *)
Definition serve (x : Exchange) : Served :=
  match runHandler Routes.routes x with
  | inl x' => ByMiddleware x'
  | inr (rt, x') =>
      match HttpRouter.lookup rt (Method (request x')) (URLPath (request x')) with
      | None => ByRouter x'
      | Some route =>
          match runHandler (HttpRouter.routeHandler route) x' with
          | inl x'' => ByMiddleware x''
          | inr (e, x'') => Reached e x''
          end
      end
  end.

(** Modelled from the spec: an authenticated session, in the terms of
    the missing identity step: it is stored, holds a user id, and that
    user exists. *)
Definition authenticatedSession (x : Exchange) : bool :=
  match stored x with
  | Loaded s =>
      match s !! userIDKey with
      | Some (VInt id) => userExists id
      | _ => false
      end
  | _ => false
  end.

End Middlewares.

(** A response that redirects to [url]. *)
Definition redirectsTo (url : string) (w : ResponseWriter) : Prop :=
  exists s, sent w = Some s
            /\ 300 <= sentStatus s < 400
            /\ sentHeader s !! "Location" = Some [url].

End Pipeline.

(** ** Vocabulary of the specification *)

(** The generic answer to a server error. *)
Definition genericError (w : Http.ResponseWriter) : Http.ResponseWriter :=
  Http.Error "Internal Server Error" Http.StatusInternalServerError w.

(** The two chains of [routes], as the specification lists them: panic
    recovery, request logging, security headers; then session
    load/save, CSRF validation, identity propagation. *)
Definition standardChain : list Middleware :=
  [recoverPanic; logRequest; secureHeaders].
Definition dynamicChain : list Middleware :=
  [LoadAndSave; noSurf; authenticate].

(** The routes that the specification calls protected. *)
Definition protectedRoutes : list (string * string) :=
  [("POST", "/snippet/create"); ("GET", "/snippet/create");
   ("POST", "/user/logout")].

Definition isProtected (method pattern : string) : bool :=
  bool_decide ((method, pattern) ∈ protectedRoutes).

(** The order of middlewares that the specification gives for a request:
    the six of the two chains and, on a protected route, the
    authentication requirement. *)
Definition specifiedChain (method pattern : string) : list Middleware :=
  (standardChain ++ dynamicChain
   ++ (if isProtected method pattern then [requireAuthentication] else []))%list.

(** The route table as registered: method, pattern, and whether the
    handler sits behind the authentication requirement. *)
Definition registered : list (string * string * bool) :=
  map (fun r => (HttpRouter.routeMethod r, HttpRouter.routePath r,
                 Routes.requiresAuth (HttpRouter.routeHandler r)))
      (HttpRouter.routes Routes.router).

(** The route table of the specification. *)
Definition specifiedRoutes : list (string * string * bool) :=
  [("GET", "/", false); ("GET", "/snippet/view/:id", false);
   ("GET", "/snippet/create", true); ("POST", "/snippet/create", true);
   ("GET", "/user/signup", false); ("POST", "/user/signup", false);
   ("GET", "/user/login", false); ("POST", "/user/login", false);
   ("POST", "/user/logout", true); ("GET", "/static/*filepath", false)].

(** The chain in front of a protected handler, written out. *)
Definition protectedChain (e : Endpoint) : Handler Endpoint :=
  Wrap LoadAndSave
    (Wrap noSurf (Wrap authenticate (Wrap requireAuthentication (Leaf e)))).

(** What the specification promises for a protected route that is
    requested without an authenticated session: a middleware answers,
    and the answer is a redirect to the login page. *)
Definition redirectedToLogin (s : Pipeline.Served) : Prop :=
  exists x', s = Pipeline.ByMiddleware x'
             /\ Pipeline.redirectsTo Pipeline.loginPage (Pipeline.writer x').

(** A file tree with the style sheet that the comments of [routes]
    mention, [static/css/main.css]. *)
Definition sampleFiles : FileServer.Node :=
  FileServer.Dir
    [("html", FileServer.Dir [("base.tmpl", FileServer.File "{{define}}")]);
     ("static", FileServer.Dir
        [("css", FileServer.Dir [("main.css", FileServer.File "body {}")])])].

(** Protocol versions that count as modern: TLS 1.2 and later. *)
Definition modernVersion (v : Z) : Prop := Tls.VersionTLS12 <= v.

(** ** [openDB] ([main.go]) *)

(** A [*sql.DB]: the driver and the data source it was opened with. *)
Record DB := mkDB { driverName : string; dataSourceName : string }.

(** [openDB]: [sqlOpen] is [sql.Open], which yields a pool or an error;
    [ping] is [db.Ping], which yields an error or none.  As in Go the
    result is a pair of the pool and the error. *)
Definition openDB (sqlOpen : string -> string -> DB + string)
    (ping : DB -> option string) (dsn : string) : option DB * option string :=
  match sqlOpen "mysql" dsn with
  | inr err => (None, Some err)
  | inl db =>
      match ping db with
      | Some err => (None, Some err)
      | None => (Some db, None)
      end
  end.

(** How the handlers inside the recovery middleware ended: they
    returned, or they stopped with a fault; in either case the response
    writer is left as far as they got. *)
Inductive Downstream :=
| Returned (w : Http.ResponseWriter)
| Panicked (w : Http.ResponseWriter) (fault : string).

(** Modelled from the spec: the panic recovery of [middleware.go],
    which is missing.  Section 4.1, step 1: it catches any unhandled
    fault from downstream, logs it with a stack trace, returns a
    generic 500 response (through [serverError]) and closes the
    connection; without a fault it does nothing. *)
Definition recovered (stack : string) (app : application) (d : Downstream)
  : application * Http.ResponseWriter :=
  match d with
  | Returned w => (app, w)
  | Panicked w fault =>
      serverError stack app (Http.HeaderSet "Connection" "close" w) fault
  end.

(** * Properties *)

(** ** Facts about the response writer *)

Section WriterFacts.
Import Http.

Lemma Error_fresh_sent msg code w :
  sent w = None ->
  sent (Error msg code w)
  = Some {| sentStatus := code;
            sentHeader :=
              <["X-Content-Type-Options" := ["nosniff"]]>
                (<["Content-Type" := ["text/plain; charset=utf-8"]]>
                   (delete "Content-Length" (header w))) |}.
Proof.
  intros Hw. unfold Error, Write, WriteHeader, HeaderSet, HeaderDel.
  simpl. rewrite Hw. reflexivity.
Qed.

Lemma Error_body msg code w :
  body (Error msg code w) = body w +:+ msg +:+ newline.
Proof.
  unfold Error, Write, WriteHeader, HeaderSet, HeaderDel. simpl.
  destruct (sent w) eqn:Hw; simpl; rewrite ?Hw; reflexivity.
Qed.

Lemma Error_fresh_status msg code w :
  sent w = None -> status (Error msg code w) = Some code.
Proof.
  intros Hw. unfold status. rewrite (Error_fresh_sent _ _ _ Hw). reflexivity.
Qed.

Lemma Write_after_WriteHeader_sent buf code w :
  sent w = None ->
  sent (Write buf (WriteHeader code w))
  = Some {| sentStatus := code; sentHeader := header w |}.
Proof.
  intros Hw. unfold Write, WriteHeader. simpl. rewrite Hw. reflexivity.
Qed.

Lemma Write_after_WriteHeader_body buf code w :
  body (Write buf (WriteHeader code w)) = body w +:+ buf.
Proof.
  unfold Write, WriteHeader.
  destruct (sent w) eqn:Hw; simpl; rewrite ?Hw; reflexivity.
Qed.

End WriterFacts.

(** ** The authentication flag of a request *)

(** C9.  A request whose context has no value under the
    [isAuthenticated] key, or a value there that is no boolean, counts
    as anonymous: [isAuthenticated] (a total function, so no fault)
    answers [false].  It answers [true] exactly when the context holds
    the boolean [true] under the key. *)
Theorem isAuthenticated_only_on_explicit_true (key : ctxKey) (r : Request) :
  (Value (reqContext r) key = None -> isAuthenticated key r = false)
  /\ (forall v, Value (reqContext r) key = Some v ->
                (forall b, v <> VBool b) -> isAuthenticated key r = false)
  /\ (isAuthenticated key r = true
      <-> Value (reqContext r) key = Some (VBool true)).
Proof.
  unfold isAuthenticated.
  destruct (Value (reqContext r) key) as [v|] eqn:Hv; simpl.
  - split; [discriminate|]. split.
    + intros v' Hv' Hnb. injection Hv' as <-.
      destruct v as [b| | |]; simpl; try reflexivity.
      exfalso. exact (Hnb b eq_refl).
    + destruct v as [[|]| | |]; simpl; split; congruence.
  - split; [reflexivity|]. split; [discriminate|]. split; discriminate.
Qed.

Lemma isAuthenticated_only_on_explicit_true_witness :
  let key := mkCtxKey "main.contextKey" "isAuthenticated" in
  isAuthenticated key (mkRequest "GET" "/" [] [] "tok") = false
  /\ isAuthenticated key
       (mkRequest "GET" "/" [] [(key, VString "true")] "tok") = false
  /\ isAuthenticated key
       (mkRequest "GET" "/" [] [(key, VBool true)] "tok") = true.
Proof.
  intros key. split; [|split].
  - apply (isAuthenticated_only_on_explicit_true key
             (mkRequest "GET" "/" [] [] "tok")). reflexivity.
  - apply (proj1 (proj2 (isAuthenticated_only_on_explicit_true key
             (mkRequest "GET" "/" [] [(key, VString "true")] "tok")))
             (VString "true")).
    + reflexivity.
    + intros b. discriminate.
  - apply (isAuthenticated_only_on_explicit_true key
             (mkRequest "GET" "/" [] [(key, VBool true)] "tok")). reflexivity.
Defined.

(** ** The template data envelope *)

(** C8.  The envelope that [newTemplateData] builds for a request
    contains the flash message popped from the session (the string
    under ["flash"], or the empty string, and the key is gone from the
    session afterwards), the year of the current time, the
    authentication flag of the request ([true] exactly when the context
    holds the boolean [true] under the key) and the CSRF token of the
    request.  It contains exactly these: every other field of the
    struct is left at its zero value, and nothing else of the request,
    the session or the time enters it, so two calls that agree on these
    four build the same envelope. *)
Theorem newTemplateData_envelope (key : ctxKey) (now : Time)
    (sess : Session) (r : Request) :
  let td := fst (newTemplateData key now sess r) in
  let sess' := snd (newTemplateData key now sess r) in
  Flash td = match sess !! "flash" with
             | Some (VString s) => s
             | _ => ""
             end
  /\ CurrentYear td = Year now
  /\ (IsAuthenticated td = true
      <-> Value (reqContext r) key = Some (VBool true))
  /\ CSRFToken td = csrfToken r
  /\ Others td = ∅
  /\ sess' = delete "flash" sess
  /\ sess' !! "flash" = None
  /\ (forall now2 sess2 r2,
        sess2 !! "flash" = sess !! "flash" ->
        Year now2 = Year now ->
        Value (reqContext r2) key = Value (reqContext r) key ->
        csrfToken r2 = csrfToken r ->
        fst (newTemplateData key now2 sess2 r2) = td).
Proof.
  assert (forall n s q,
             fst (newTemplateData key n s q)
             = {| Flash := match s !! "flash" with
                           | Some (VString m) => m
                           | _ => ""
                           end;
                  CurrentYear := Year n;
                  IsAuthenticated :=
                    match Value (reqContext q) key with
                    | Some (VBool b) => b
                    | _ => false
                    end;
                  CSRFToken := csrfToken q;
                  Others := ∅ |}) as Hshape.
  { intros n s q.
    unfold newTemplateData, PopString, Pop, Token, isAuthenticated.
    destruct (s !! "flash") as [[| | |]|]; simpl;
      destruct (Value (reqContext q) key) as [[[|]| | |]|]; reflexivity. }
  simpl. rewrite Hshape. cbn [Flash CurrentYear IsAuthenticated CSRFToken Others].
  split; [reflexivity|]. split; [reflexivity|]. split.
  { destruct (Value (reqContext r) key) as [[[|]| | |]|];
      split; congruence. }
  split; [reflexivity|]. split; [reflexivity|].
  assert (snd (newTemplateData key now sess r) = delete "flash" sess) as ->.
  { unfold newTemplateData, PopString, Pop.
    destruct (sess !! "flash") as [v|] eqn:Hf; simpl; [reflexivity|].
    symmetry. apply delete_id. exact Hf. }
  split; [reflexivity|]. split; [apply lookup_delete_eq|].
  intros now2 sess2 r2 Hflash Hyear Hctx Htok.
  rewrite Hshape, Hflash, Hyear, Hctx, Htok. reflexivity.
Qed.

Lemma newTemplateData_envelope_witness :
  let key := mkCtxKey "main.contextKey" "isAuthenticated" in
  let sess : Session := <["flash" := VString "Snippet created"]> ∅ in
  let r := mkRequest "GET" "/" [] [(key, VBool true)] "tok" in
  let r2 := mkRequest "POST" "/snippet/create" [("id", "3")]
              [(mkCtxKey "string" "trace", VString "x"); (key, VBool true)]
              "tok" in
  fst (newTemplateData key (mkTime 2026) sess r)
  = mkTemplateData "Snippet created" 2026 true "tok" ∅
  /\ fst (newTemplateData key (mkTime 2026)
            (<["authenticatedUserID" := VInt 7]> sess) r2)
     = fst (newTemplateData key (mkTime 2026) sess r).
Proof.
  intros key sess r r2. split; [reflexivity|].
  apply (newTemplateData_envelope key (mkTime 2026) sess r); reflexivity.
Defined.

(** ** Server errors *)

(** C4, as stated, fails: a server error that comes up after the
    response has been started is not answered 500.  The status sent
    stays (here 200), and the body is what was written already followed
    by the generic text.  A fault in a handler that has written part of
    its page meets the recovery middleware in just this state. *)
Lemma server_error_on_started_response :
  let app := mkApplication [] [] ∅ in
  let w := Http.Write "<html><body>" Http.newResponseWriter in
  let w' := snd (serverError "goroutine 1" app w "sql: connection lost") in
  Http.status w' = Some 200
  /\ Http.status w' <> Some 500
  /\ Http.body w' = "<html><body>Internal Server Error" +:+ Http.newline
  /\ Http.body w' <> "Internal Server Error" +:+ Http.newline
  /\ Http.status
       (snd (recovered "goroutine 1" app (Panicked w "index out of range")))
     = Some 200.
Proof.
  intros app w w'. split; [reflexivity|]. split; [discriminate|].
  split; [reflexivity|]. split; [discriminate|]. reflexivity.
Qed.

(** C4, amended.  Whatever the error and the stack trace, [serverError]
    answers with [http.Error] of the generic status text and code 500,
    so the response is the same for any two errors, and error and stack
    trace go to the error log and nowhere else.  When nothing of the
    response has been sent, the client gets status 500 and a body that
    is the status text and a newline only.  When the response has been
    started, the status and headers sent stay as they are and the
    generic text is appended.  The two failures of [render] (template
    missing, execution failed) and a fault caught by the recovery
    middleware are answered by [serverError], the latter after the
    connection has been marked to be closed. *)
Theorem serverError_response_by_progress (stack : string) (app : application)
    (w : Http.ResponseWriter) (err : string) :
  let app' := fst (serverError stack app w err) in
  let w' := snd (serverError stack app w err) in
  (forall stack2 err2, snd (serverError stack2 app w err2) = w')
  /\ errorLog app' = (errorLog app ++ [err +:+ Http.newline +:+ stack])%list
  /\ infoLog app' = infoLog app
  /\ (Http.sent w = None -> Http.body w = "" ->
      Http.status w' = Some 500
      /\ Http.body w' = "Internal Server Error" +:+ Http.newline)
  /\ (forall s, Http.sent w = Some s ->
                Http.sent w' = Some s
                /\ Http.body w'
                   = Http.body w +:+ "Internal Server Error" +:+ Http.newline)
  /\ (forall status page data,
        templateCache app !! page = None ->
        render stack app w status page data
        = serverError stack app w
            ("the template " +:+ page +:+ " does not exist"))
  /\ (forall status page data ts buf e,
        templateCache app !! page = Some ts ->
        ExecuteTemplate ts "base" data = (buf, Some e) ->
        render stack app w status page data = serverError stack app w e)
  /\ (forall fault,
        recovered stack app (Panicked w fault)
        = serverError stack app (Http.HeaderSet "Connection" "close" w) fault
        /\ (Http.sent w = None -> Http.body w = "" ->
            let w2 := snd (recovered stack app (Panicked w fault)) in
            Http.status w2 = Some 500
            /\ Http.body w2 = "Internal Server Error" +:+ Http.newline
            /\ exists s, Http.sent w2 = Some s
                         /\ Http.sentHeader s !! "Connection"
                            = Some ["close"])).
Proof.
  unfold recovered, serverError; cbn [fst snd].
  split; [reflexivity|]. split; [reflexivity|]. split; [reflexivity|].
  split.
  { intros Hw Hb. split; [apply Error_fresh_status; exact Hw|].
    rewrite Error_body, Hb. reflexivity. }
  split.
  { intros s Hw. split; [|apply Error_body].
    unfold Http.Error, Http.Write, Http.WriteHeader, Http.HeaderSet,
      Http.HeaderDel. simpl. repeat (rewrite Hw; simpl). reflexivity. }
  split.
  { intros status page data Hp. unfold render. rewrite Hp. reflexivity. }
  split.
  { intros status page data ts buf e Hp He. unfold render.
    rewrite Hp, He. reflexivity. }
  intros fault. split; [reflexivity|]. intros Hw Hb. cbv zeta.
  assert (Http.sent (Http.HeaderSet "Connection" "close" w) = None) as Hw'
    by exact Hw.
  split; [apply Error_fresh_status; exact Hw'|]. split.
  - rewrite Error_body. cbn [Http.body Http.HeaderSet]. rewrite Hb.
    reflexivity.
  - eexists. split; [apply Error_fresh_sent; exact Hw'|].
    cbn [Http.sentHeader Http.header Http.HeaderSet].
    rewrite lookup_insert_ne by discriminate.
    rewrite lookup_insert_ne by discriminate.
    rewrite lookup_delete_ne by discriminate.
    apply lookup_insert_eq.
Qed.

Lemma serverError_response_by_progress_witness :
  let app := mkApplication [] [] ∅ in
  let w' := snd (serverError "main.go:64" app Http.newResponseWriter
                   "dial tcp: connection refused") in
  Http.status w' = Some 500
  /\ Http.body w' = "Internal Server Error" +:+ Http.newline
  /\ snd (render "main.go:64" app Http.newResponseWriter 200 "home.tmpl"
            (mkTemplateData "" 2026 false "tok" ∅)) = w'
  /\ Http.status (snd (recovered "main.go:64" app
                         (Panicked Http.newResponseWriter "nil map")))
     = Some 500.
Proof.
  intros app w'.
  pose proof (serverError_response_by_progress "main.go:64" app
                Http.newResponseWriter "dial tcp: connection refused")
    as (Hsame & _ & _ & Hfresh & _ & Hmiss & _ & Hpanic).
  destruct (Hfresh eq_refl eq_refl) as [Hs Hb].
  split; [exact Hs|]. split; [exact Hb|]. split.
  - rewrite (Hmiss 200 "home.tmpl" (mkTemplateData "" 2026 false "tok" ∅)
               (lookup_empty _)).
    apply Hsame.
  - destruct (Hpanic "nil map") as [_ Hp].
    destruct (Hp eq_refl eq_refl) as [Hs' _]. exact Hs'.
Defined.

(** ** Rendering *)

(** C10.  [render] touches the response only at its end.  When the page
    is in the cache and its template runs to completion into the buffer,
    the given status is written and then the whole buffer.  When the
    page is missing or the execution fails, the answer is the generic
    500 and nothing of what the template had produced reaches the
    client: the response does not depend on the partial output.
    Conversely, on a writer that has sent nothing, any status other
    than 500 in the response means that the template was found and ran
    to completion. *)
Theorem render_writes_only_complete_pages (stack : string) (app : application)
    (w : Http.ResponseWriter) (status : Z) (page : string)
    (data : templateData) :
  let w' := snd (render stack app w status page data) in
  (forall ts buf,
      templateCache app !! page = Some ts ->
      ExecuteTemplate ts "base" data = (buf, None) ->
      render stack app w status page data
      = (app, Http.Write buf (Http.WriteHeader status w))
      /\ Http.body w' = Http.body w +:+ buf
      /\ (Http.sent w = None -> Http.status w' = Some status))
  /\ (templateCache app !! page = None
      \/ (exists ts partial e,
             templateCache app !! page = Some ts
             /\ ExecuteTemplate ts "base" data = (partial, Some e)) ->
      w' = genericError w
      /\ Http.body w' = Http.body w +:+ "Internal Server Error" +:+ Http.newline
      /\ (Http.sent w = None -> Http.status w' = Some 500))
  /\ (Http.sent w = None -> Http.status w' <> Some 500 ->
      exists ts buf,
        templateCache app !! page = Some ts
        /\ ExecuteTemplate ts "base" data = (buf, None)
        /\ w' = Http.Write buf (Http.WriteHeader status w)).
Proof.
  simpl. split; [|split].
  - intros ts buf Hp He. unfold render. rewrite Hp, He. simpl.
    split; [reflexivity|]. split.
    + apply Write_after_WriteHeader_body.
    + intros Hw. unfold Http.status.
      rewrite (Write_after_WriteHeader_sent _ _ _ Hw). reflexivity.
  - intros Hfail.
    assert (snd (render stack app w status page data) = genericError w) as ->.
    { destruct Hfail as [Hp | (ts & partial & e & Hp & He)];
        unfold render; rewrite Hp; [|rewrite He]; reflexivity. }
    unfold genericError. split; [reflexivity|]. split.
    + apply Error_body.
    + intros Hw. apply Error_fresh_status. exact Hw.
  - intros Hw Hne. unfold render in *.
    destruct (templateCache app !! page) as [ts|] eqn:Hp.
    + destruct (ExecuteTemplate ts "base" data) as [buf [e|]] eqn:He.
      * exfalso. apply Hne. simpl. apply Error_fresh_status. exact Hw.
      * exists ts, buf. split; [reflexivity|]. split; [exact He|reflexivity].
    + exfalso. apply Hne. simpl. apply Error_fresh_status. exact Hw.
Qed.

Lemma render_writes_only_complete_pages_witness :
  let good := mkTemplate (fun _ td => ("<p>" +:+ Flash td +:+ "</p>", None)) in
  let bad := mkTemplate (fun _ _ => ("<p>half a pa", Some "nil pointer")) in
  let app := mkApplication [] [] (<["home.tmpl" := good]> (<["view.tmpl" := bad]> ∅)) in
  let td := mkTemplateData "saved" 2026 true "tok" ∅ in
  Http.body (snd (render "" app Http.newResponseWriter 200 "home.tmpl" td))
  = "<p>saved</p>"
  /\ Http.status (snd (render "" app Http.newResponseWriter 200 "home.tmpl" td))
     = Some 200
  /\ Http.body (snd (render "" app Http.newResponseWriter 200 "view.tmpl" td))
     = "Internal Server Error" +:+ Http.newline
  /\ Http.status (snd (render "" app Http.newResponseWriter 200 "view.tmpl" td))
     = Some 500.
Proof.
  intros good bad app td.
  pose proof (render_writes_only_complete_pages "" app Http.newResponseWriter
                200 "home.tmpl" td) as (Hok & _ & _).
  pose proof (render_writes_only_complete_pages "" app Http.newResponseWriter
                200 "view.tmpl" td) as (_ & Hfail & _).
  destruct (Hok good "<p>saved</p>" eq_refl eq_refl) as (_ & Hb & Hs).
  destruct Hfail as (_ & Hb' & Hs').
  { right. exists bad, "<p>half a pa", "nil pointer". split; reflexivity. }
  split; [exact Hb|]. split; [apply Hs; reflexivity|].
  split; [exact Hb'|]. apply Hs'. reflexivity.
Defined.

(** ** The snippet view and its id parameter *)

Section AtoiFacts.
Import Strconv.

Lemma digits_only_digits s : forall acc n,
  digits s acc = Some n -> Forall (fun c => isDigit c = true) (list_ascii_of_string s).
Proof.
  induction s as [|c s IH]; intros acc n H; simpl in *.
  - constructor.
  - destruct (isDigit c) eqn:Hc; [|discriminate].
    constructor; [exact Hc|]. exact (IH _ _ H).
Qed.

(** A string that [Atoi] accepts is an optional sign followed by
    decimal digits, at least one. *)
Lemma Atoi_accepts_only_numerals s :
  snd (Atoi s) = None ->
  exists sign ds,
    s = sign +:+ ds
    /\ (sign = "" \/ sign = "+" \/ sign = "-")
    /\ ds <> ""
    /\ Forall (fun c => isDigit c = true) (list_ascii_of_string ds).
Proof.
  unfold Atoi. destruct s as [|c rest]; [discriminate|].
  intros H.
  destruct (bool_decide (c = "-"%char)) eqn:Hm;
    [|destruct (bool_decide (c = "+"%char)) eqn:Hp];
    cbv beta iota zeta delta [orb] in H.
  - apply bool_decide_eq_true in Hm. subst c.
    destruct rest as [|d rest']; [discriminate|].
    destruct (digits (String d rest') 0) as [n|] eqn:Hd; [|discriminate].
    exists "-", (String d rest').
    split; [reflexivity|]. split; [auto|]. split; [discriminate|].
    exact (digits_only_digits _ _ _ Hd).
  - apply bool_decide_eq_true in Hp. subst c.
    destruct rest as [|d rest']; [discriminate|].
    destruct (digits (String d rest') 0) as [n|] eqn:Hd; [|discriminate].
    exists "+", (String d rest').
    split; [reflexivity|]. split; [auto|]. split; [discriminate|].
    exact (digits_only_digits _ _ _ Hd).
  - destruct (digits (String c rest) 0) as [n|] eqn:Hd; [|discriminate].
    exists "", (String c rest).
    split; [reflexivity|]. split; [auto|]. split; [discriminate|].
    exact (digits_only_digits _ _ _ Hd).
Qed.

End AtoiFacts.

(** C3.  When the [id] parameter of a snippet-view request does not
    parse as an integer ([strconv.Atoi] returns an error), or parses to
    an integer below 1, [snippetView] answers with [http.NotFound]: the
    body gets the 404 text, and on a writer that has sent nothing the
    status is 404 and the response is not the display of any snippet. *)
Theorem snippetView_invalid_id_not_found (w : Http.ResponseWriter)
    (r : Request) :
  let s := QueryGet (URLQuery r) "id" in
  snd (Strconv.Atoi s) <> None \/ fst (Strconv.Atoi s) < 1 ->
  Handlers.snippetView w r = Http.NotFound w
  /\ Http.body (Handlers.snippetView w r)
     = Http.body w +:+ "404 page not found" +:+ Http.newline
  /\ (Http.sent w = None ->
      Http.status (Handlers.snippetView w r) = Some 404
      /\ forall id, Handlers.snippetView w r
                    <> Http.Write (Handlers.snippetViewText id) w).
Proof.
  intros s Hbad.
  assert (Handlers.snippetView w r = Http.NotFound w) as ->.
  { unfold Handlers.snippetView. fold s.
    destruct (Strconv.Atoi s) as [id err]; simpl in Hbad.
    destruct Hbad as [Herr | Hlt].
    - rewrite bool_decide_eq_true_2 by exact Herr. reflexivity.
    - apply Z.ltb_lt in Hlt. rewrite Hlt, orb_true_r. reflexivity. }
  unfold Http.NotFound. split; [reflexivity|]. split; [apply Error_body|].
  intros Hw. split; [apply Error_fresh_status; exact Hw|].
  intros id Heq. apply (f_equal Http.status) in Heq.
  rewrite (Error_fresh_status _ _ _ Hw) in Heq.
  unfold Http.status, Http.Write, Http.WriteHeader in Heq.
  rewrite Hw in Heq. discriminate.
Qed.

Lemma snippetView_invalid_id_not_found_witness :
  let view id := Handlers.snippetView Http.newResponseWriter
                   (mkRequest "GET" "/snippet/view" [("id", id)] [] "") in
  Http.status (view "abc") = Some 404
  /\ Http.status (view "0") = Some 404
  /\ Http.status (view "-7") = Some 404
  /\ Http.status (view "") = Some 404
  /\ Http.status (view "9223372036854775808") = Some 404.
Proof.
  intros view.
  assert (forall id,
             snd (Strconv.Atoi id) <> None \/ fst (Strconv.Atoi id) < 1 ->
             Http.status (view id) = Some 404) as H.
  { intros id Hbad.
    apply (snippetView_invalid_id_not_found Http.newResponseWriter
             (mkRequest "GET" "/snippet/view" [("id", id)] [] "")).
    - exact Hbad.
    - reflexivity. }
  repeat split; apply H; vm_compute; (left; discriminate) || (right; reflexivity).
Defined.

(** A valid id, for comparison: the text with the number is written
    with status 200. *)
Lemma snippetView_valid_id (w : Http.ResponseWriter) (r : Request) (id : Z) :
  Strconv.Atoi (QueryGet (URLQuery r) "id") = (id, None) -> 1 <= id ->
  Handlers.snippetView w r = Http.Write (Handlers.snippetViewText id) w.
Proof.
  intros Hid Hge. unfold Handlers.snippetView. rewrite Hid.
  rewrite bool_decide_eq_false_2 by (intros H; apply H; reflexivity).
  rewrite (proj2 (Z.ltb_ge id 1) Hge).
  reflexivity.
Qed.

(** ** The route table *)

Ltac split_at a l k :=
  lazymatch l with
  | a :: ?t => k (@nil (string * string * bool)) t
  | ?h :: ?t => split_at a t ltac:(fun l1 l2 => k (h :: l1) l2)
  end.

(** Proves that one explicit list is a rearrangement of another. *)
Ltac permute :=
  repeat lazymatch goal with
    | |- Permutation [] [] => apply perm_nil
    | |- Permutation (?a :: ?l) ?l' =>
        split_at a l' ltac:(fun l1 l2 =>
          change l' with (l1 ++ a :: l2)%list;
          apply Permutation_cons_app; cbn [app])
    end.

Lemma unwrap_routes :
  unwrap Routes.routes = (standardChain, Routes.router).
Proof. reflexivity. Qed.

Lemma registered_in_order :
  registered
  = [("GET", "/static/*filepath", false); ("GET", "/", false);
     ("GET", "/snippet/view/:id", false); ("GET", "/user/signup", false);
     ("POST", "/user/signup", false); ("POST", "/user/login", false);
     ("GET", "/user/login", false); ("POST", "/snippet/create", true);
     ("GET", "/snippet/create", true); ("POST", "/user/logout", true)].
Proof. vm_compute. reflexivity. Qed.

(** C5.  The routes that [routes] registers are, up to their order,
    exactly the ten of the specification, each method and pattern once;
    the handlers of [/snippet/create] (both methods) and of
    [/user/logout] sit behind the authentication requirement, the
    handlers of the other routes do not. *)
Theorem routes_registered_exactly :
  registered ≡ₚ specifiedRoutes
  /\ NoDup (map fst registered)
  /\ forall method pattern auth,
       (method, pattern, auth) ∈ registered ->
       auth = isProtected method pattern.
Proof.
  rewrite registered_in_order. split; [|split].
  - unfold specifiedRoutes. permute.
  - cbn [map fst]. apply (bool_decide_unpack _). vm_compute. exact I.
  - intros method pattern auth Hin.
    repeat (apply elem_of_cons in Hin as [Heq | Hin];
            [injection Heq as -> -> ->; reflexivity|]).
    apply elem_of_nil in Hin. contradiction.
Qed.

Lemma routes_registered_exactly_witness :
  ("POST", "/user/logout", true) ∈ registered
  /\ true = isProtected "POST" "/user/logout".
Proof.
  assert (("POST", "/user/logout", true) ∈ registered) as Hin.
  { rewrite registered_in_order. apply (bool_decide_unpack _). vm_compute. exact I. }
  split; [exact Hin|].
  exact (proj2 (proj2 routes_registered_exactly) _ _ _ Hin).
Defined.

(** ** The order of the middlewares *)

(** C1, as stated, fails: a request for a static file is handled behind
    panic recovery, request logging and the security headers only;
    session, CSRF and identity middlewares are not on its way. *)
Lemma static_request_skips_dynamic_chain :
  Routes.pipeline "GET" "/static/css/main.css"
  = ([recoverPanic; logRequest; secureHeaders], Routes.ToHandler FileServer)
  /\ fst (Routes.pipeline "GET" "/static/css/main.css")
     <> specifiedChain "GET" "/static/*filepath"
  /\ ~ (forall method path,
          exists protected,
            fst (Routes.pipeline method path)
            = (standardChain ++ dynamicChain
               ++ (if protected : bool then [requireAuthentication] else []))%list).
Proof.
  split; [reflexivity|]. split; [vm_compute; discriminate|].
  intros H. destruct (H "GET" "/static/css/main.css") as [[|] Heq];
    vm_compute in Heq; discriminate.
Qed.

(** C1, amended.  A request that the router hands to one of the nine
    dynamic routes passes panic recovery, request logging, security
    headers, session load/save, CSRF validation and identity
    propagation, in this order, then the authentication requirement
    when the route is a protected one, and only then the route handler.
    A request for the static files passes the first three only before
    the file server, and so does a request for which no route is
    registered before the router answers it. *)
Theorem pipeline_order_by_route (method path : string) :
  (forall route,
      HttpRouter.lookup Routes.router method path = Some route ->
      if bool_decide (HttpRouter.routePath route = "/static/*filepath")
      then Routes.pipeline method path
           = (standardChain, Routes.ToHandler FileServer)
      else exists f,
          Routes.pipeline method path
          = (specifiedChain (HttpRouter.routeMethod route)
                            (HttpRouter.routePath route),
             Routes.ToHandler (HandlerFunc f)))
  /\ (HttpRouter.lookup Routes.router method path = None ->
      Routes.pipeline method path = (standardChain, Routes.RouterReply)).
Proof.
  unfold Routes.pipeline. rewrite unwrap_routes. split.
  - intros route Hroute. rewrite Hroute.
    apply find_some in Hroute as [Hin _].
    cbv in Hin.
    repeat (destruct Hin as [<- | Hin];
            [vm_compute; first [reflexivity | eexists; reflexivity]|]).
    contradiction.
  - intros ->. reflexivity.
Qed.

Lemma pipeline_order_by_route_witness :
  Routes.pipeline "POST" "/user/logout"
  = ([recoverPanic; logRequest; secureHeaders; LoadAndSave; noSurf;
      authenticate; requireAuthentication],
     Routes.ToHandler (HandlerFunc userLogoutPost))
  /\ Routes.pipeline "GET" "/snippet/view/42"
     = ([recoverPanic; logRequest; secureHeaders; LoadAndSave; noSurf;
         authenticate],
        Routes.ToHandler (HandlerFunc snippetView))
  /\ Routes.pipeline "GET" "/nowhere"
     = ([recoverPanic; logRequest; secureHeaders], Routes.RouterReply).
Proof.
  split; [|split].
  - destruct (proj1 (pipeline_order_by_route "POST" "/user/logout") _ eq_refl)
      as [f Hf].
    rewrite Hf. vm_compute in Hf. injection Hf as <-. reflexivity.
  - destruct (proj1 (pipeline_order_by_route "GET" "/snippet/view/42") _ eq_refl)
      as [f Hf].
    rewrite Hf. vm_compute in Hf. injection Hf as <-. reflexivity.
  - apply (proj2 (pipeline_order_by_route "GET" "/nowhere")). reflexivity.
Defined.

(** ** Protected routes *)

Section ProtectedRoutes.
Import Http Pipeline.

Lemma isAuthenticated_absent key r :
  Value (reqContext r) key = None -> isAuthenticated key r = false.
Proof. intros H. unfold isAuthenticated. rewrite H. reflexivity. Qed.

Lemma headers_keep_sent hs : forall w,
  sent (fold_left (fun w kv => HeaderSet (fst kv) (snd kv) w) hs w) = sent w.
Proof.
  induction hs as [|kv hs IH]; intros w; simpl; [reflexivity|].
  rewrite IH. reflexivity.
Qed.

Lemma Redirect_fresh url w :
  sent w = None -> redirectsTo url (Redirect url w).
Proof.
  intros Hw. unfold redirectsTo, Redirect, WriteHeader, HeaderSet. simpl.
  rewrite Hw. eexists. split; [reflexivity|]. simpl.
  split; [unfold StatusSeeOther; lia|]. apply lookup_insert_eq.
Qed.

Lemma protected_routes_lookup m p :
  (m, p) ∈ protectedRoutes ->
  exists route f,
    HttpRouter.lookup Routes.router m p = Some route
    /\ HttpRouter.routeHandler route = protectedChain (HandlerFunc f).
Proof.
  unfold protectedRoutes. intros Hin.
  repeat (apply elem_of_cons in Hin as [Heq | Hin];
          [injection Heq as -> ->; eexists; eexists;
           split; vm_compute; reflexivity|]).
  apply elem_of_nil in Hin. contradiction.
Qed.

Variable key : ctxKey.
Variables userIDKey pathKey : string.
Variable staticHeaders : list (string * string).
Variable userExists : Z -> bool.
Variable stack : string.

Local Notation "'run' h x" :=
  (runHandler key userIDKey pathKey staticHeaders userExists stack h x)
  (at level 10, h at level 9, x at level 9, only parsing).

(** The standard chain forwards every request to the router and
    leaves request, form token and stored session as they were. *)
Lemma standard_chain_forwards (x : Exchange) :
  exists x1,
    run Routes.routes x = inr (Routes.router, x1)
    /\ request x1 = request x /\ formToken x1 = formToken x
    /\ stored x1 = stored x /\ sent (writer x1) = sent (writer x).
Proof.
  eexists. split; [reflexivity|]. simpl. rewrite headers_keep_sent. auto.
Qed.

(** Past session loading and CSRF validation, an anonymous request is
    redirected by the authentication requirement. *)
Lemma anonymous_is_redirected (e : Endpoint) r ft pr st s w a :
  Value (reqContext r) key = None ->
  sent w = None ->
  match s !! userIDKey with Some (VInt id) => userExists id | _ => false end
  = false ->
  exists x',
    run (Wrap authenticate (Wrap requireAuthentication (Leaf e)))
        (mkExchange r ft pr st s w a) = inl x'
    /\ redirectsTo loginPage (writer x')
    /\ session x' !! pathKey = Some (VString (URLPath r)).
Proof.
  intros Hctx Hw Hs.
  pose proof (isAuthenticated_absent key r Hctx) as Hanon.
  cbn [runHandler runMiddleware session request].
  destruct (s !! userIDKey) as [[b|t|id|o]|] eqn:Hu;
    try rewrite Hs;
    cbn [runMiddleware request withSession]; rewrite Hanon; cbn [negb];
    eexists; (split; [reflexivity|]); simpl;
    (split; [apply Redirect_fresh; exact Hw | apply lookup_insert_eq]).
Qed.

Lemma protected_chain_stops (e : Endpoint) (x : Exchange) :
  Value (reqContext (request x)) key = None ->
  sent (writer x) = None ->
  authenticatedSession userIDKey userExists x = false ->
  exists x',
    run (protectedChain e) x = inl x'
    /\ match stored x with
       | StoreError _ => status (writer x') = Some 500
       | _ =>
           if negb (safeMethod (Method (request x)))
              && negb (bool_decide (formToken x = csrfToken (request x)))
           then status (writer x') = Some 400
           else redirectsTo loginPage (writer x')
                /\ session x' !! pathKey
                   = Some (VString (URLPath (request x)))
       end.
Proof.
  destruct x as [r ft pr st se w a]; simpl.
  intros Hctx Hw Hauth. unfold authenticatedSession in Hauth. simpl in Hauth.
  unfold protectedChain. cbn [runHandler runMiddleware stored].
  destruct st as [s| |err].
  - cbn [withSession request formToken].
    destruct (negb (safeMethod (Method r)) && negb (bool_decide (ft = csrfToken r))).
    + eexists. split; [reflexivity|]. simpl. unfold clientError.
      apply Error_fresh_status. exact Hw.
    + apply anonymous_is_redirected; assumption.
  - cbn [withSession request formToken].
    destruct (negb (safeMethod (Method r)) && negb (bool_decide (ft = csrfToken r))).
    + eexists. split; [reflexivity|]. simpl. unfold clientError.
      apply Error_fresh_status. exact Hw.
    + apply anonymous_is_redirected; try assumption;
        rewrite lookup_empty; reflexivity.
  - unfold serverError. eexists. split; [reflexivity|]. simpl.
    apply Error_fresh_status. exact Hw.
Qed.

End ProtectedRoutes.

(** C2, as stated, fails: a POST to [/user/logout] without an
    authenticated session and with a wrong CSRF token is answered 400
    Bad Request by the CSRF validation, which comes before the
    authentication requirement; the answer is no redirect. *)
Lemma logout_with_wrong_token_is_rejected :
  let key := mkCtxKey "main.contextKey" "isAuthenticated" in
  let x := Pipeline.mkExchange
             (mkRequest "POST" "/user/logout" [] [] "tok") "forged" "HTTP/1.1"
             Pipeline.NoSession ∅ Http.newResponseWriter
             (mkApplication [] [] ∅) in
  let served := Pipeline.serve key "authenticatedUserID" "redirectPath" []
                               (fun _ => false) "" x in
  (Method (Pipeline.request x), URLPath (Pipeline.request x)) ∈ protectedRoutes
  /\ Pipeline.authenticatedSession "authenticatedUserID" (fun _ => false) x
     = false
  /\ (exists x', served = Pipeline.ByMiddleware x'
                 /\ Http.status (Pipeline.writer x') = Some 400)
  /\ ~ redirectedToLogin served.
Proof.
  intros key x served. split; [|split; [|split]].
  - apply (bool_decide_unpack _). vm_compute. exact I.
  - reflexivity.
  - eexists. split; reflexivity.
  - intros (x' & Hx' & s & Hs & Hrange & _).
    injection Hx' as <-. vm_compute in Hs. injection Hs as <-.
    simpl in Hrange. lia.
Qed.

(** C2, amended.  A request to a protected route that comes without an
    authenticated session never reaches the route handler: a middleware
    answers it.  The answer is a redirect to the login page, with the
    requested path filed in the session, whenever the request gets past
    session loading and CSRF validation; it is 500 when the session
    store fails, and 400 when the method changes state and the token of
    the form is not the one of the session. *)
Theorem protected_route_stops_anonymous_request
    (key : ctxKey) (userIDKey pathKey : string)
    (staticHeaders : list (string * string)) (userExists : Z -> bool)
    (stack : string) (x : Pipeline.Exchange) :
  let r := Pipeline.request x in
  (Method r, URLPath r) ∈ protectedRoutes ->
  Value (reqContext r) key = None ->
  Http.sent (Pipeline.writer x) = None ->
  Pipeline.authenticatedSession userIDKey userExists x = false ->
  exists x',
    Pipeline.serve key userIDKey pathKey staticHeaders userExists stack x
    = Pipeline.ByMiddleware x'
    /\ match Pipeline.stored x with
       | Pipeline.StoreError _ => Http.status (Pipeline.writer x') = Some 500
       | _ =>
           if negb (Pipeline.safeMethod (Method r))
              && negb (bool_decide (Pipeline.formToken x = csrfToken r))
           then Http.status (Pipeline.writer x') = Some 400
           else Pipeline.redirectsTo Pipeline.loginPage (Pipeline.writer x')
                /\ Pipeline.session x' !! pathKey = Some (VString (URLPath r))
       end.
Proof.
  intros r Hin Hctx Hw Hauth. subst r. unfold Pipeline.serve.
  destruct (standard_chain_forwards key userIDKey pathKey staticHeaders
              userExists stack x) as (x1 & -> & Hr & Hft & Hst & Hw1).
  rewrite Hr.
  destruct (protected_routes_lookup _ _ Hin) as (route & f & -> & ->).
  destruct (protected_chain_stops key userIDKey pathKey staticHeaders
              userExists stack (HandlerFunc f) x1) as (x' & -> & Hx').
  - rewrite Hr. exact Hctx.
  - rewrite Hw1. exact Hw.
  - unfold Pipeline.authenticatedSession in *. rewrite Hst. exact Hauth.
  - exists x'. split; [reflexivity|].
    rewrite Hr, Hft, Hst in Hx'. exact Hx'.
Qed.

Lemma protected_route_stops_anonymous_request_witness :
  let key := mkCtxKey "main.contextKey" "isAuthenticated" in
  let x := Pipeline.mkExchange
             (mkRequest "GET" "/snippet/create" [] [] "tok") "" "HTTP/1.1"
             (Pipeline.Loaded {["flash" := VString "hello"]}) ∅
             Http.newResponseWriter (mkApplication [] [] ∅) in
  redirectedToLogin
    (Pipeline.serve key "authenticatedUserID" "redirectPath"
       [("X-Frame-Options", "deny")] (fun id => bool_decide (id = 1)) "" x).
Proof.
  intros key x.
  destruct (protected_route_stops_anonymous_request key "authenticatedUserID"
              "redirectPath" [("X-Frame-Options", "deny")]
              (fun id => bool_decide (id = 1)) "" x)
    as (x' & Hserve & Hredirect & _).
  - apply (bool_decide_unpack _). vm_compute. exact I.
  - reflexivity.
  - reflexivity.
  - vm_compute. reflexivity.
  - exists x'. split; [exact Hserve | exact Hredirect].
Defined.

(** ** Static files *)

Section StaticFiles.
Import FileServer.

Lemma split_not_nil s : HttpRouter.split s <> [].
Proof.
  destruct s as [|c s]; simpl; [discriminate|].
  destruct (bool_decide (c = "/"%char)); [discriminate|].
  destruct (HttpRouter.split s); discriminate.
Qed.

(** Every GET request under [/static/] goes to the file server, behind
    the standard chain. *)
Lemma static_requests_reach_file_server rest :
  Routes.pipeline "GET" ("/static/" +:+ rest)
  = (standardChain, Routes.ToHandler FileServer).
Proof.
  unfold Routes.pipeline. rewrite unwrap_routes.
  assert (HttpRouter.lookup Routes.router "GET" ("/static/" +:+ rest)
          = Some (HttpRouter.mkRoute "GET" "/static/*filepath" (Leaf FileServer)))
    as ->; [|reflexivity].
  unfold HttpRouter.lookup.
  change (HttpRouter.routes Routes.router)
    with (HttpRouter.mkRoute "GET" "/static/*filepath" (Leaf FileServer)
          :: tail (HttpRouter.routes Routes.router)).
  cbn [find].
  assert (HttpRouter.matches "GET" ("/static/" +:+ rest)
            (HttpRouter.mkRoute "GET" "/static/*filepath" (Leaf FileServer))
          = true) as ->; [|reflexivity].
  unfold HttpRouter.matches, HttpRouter.segments. simpl.
  change ("" +:+ rest) with rest.
  pose proof (split_not_nil rest) as Hne.
  destruct (HttpRouter.split rest) as [|seg more]; [contradiction|].
  reflexivity.
Qed.

End StaticFiles.

(** C6, as stated, fails: with a file tree that holds
    [static/css/main.css], the request [GET /static/css/] reaches the
    file server, which answers 200 with the listing of the directory. *)
Lemma static_directory_is_listed :
  Routes.pipeline "GET" "/static/css/"
  = (standardChain, Routes.ToHandler FileServer)
  /\ FileServer.serveFile sampleFiles "/static/css/"
     = FileServer.Listing ["main.css"]
  /\ FileServer.replyStatus (FileServer.serveFile sampleFiles "/static/css/")
     = 200
  /\ ~ (forall root path names,
          FileServer.serveFile root ("/static/" +:+ path)
          <> FileServer.Listing names).
Proof.
  split; [reflexivity|]. split; [reflexivity|]. split; [reflexivity|].
  intros H. apply (H sampleFiles "css/" ["main.css"]). reflexivity.
Qed.

(** C6, amended.  A GET request under [/static/] is served by the file
    server.  A path that ends in [/index.html] is redirected to its
    directory before anything is opened.  Any other path that names
    nothing in the file tree is answered 404 Not Found.  A directory
    listing is the answer exactly when the path ends in a slash and
    names an existing directory that holds no file [index.html]; the
    listing is then that of the directory, with status 200. *)
Theorem static_missing_file_not_found (root : FileServer.Node)
    (rest : string) :
  let path := "/static/" +:+ rest in
  let reply := FileServer.serveFile root path in
  Routes.pipeline "GET" path = (standardChain, Routes.ToHandler FileServer)
  /\ (FileServer.hasSuffix path FileServer.indexPage = true ->
      reply = FileServer.MovedPermanently "./")
  /\ (FileServer.hasSuffix path FileServer.indexPage = false ->
      FileServer.open root (FileServer.Clean path) = None ->
      reply = FileServer.NotFound /\ FileServer.replyStatus reply = 404)
  /\ ((exists names, reply = FileServer.Listing names)
      <-> FileServer.hasSuffix path FileServer.indexPage = false
          /\ FileServer.hasSuffix path "/" = true
          /\ exists es,
              FileServer.open root (FileServer.Clean path)
              = Some (FileServer.Dir es)
              /\ forall data,
                  FileServer.assoc "index.html" es
                  <> Some (FileServer.File data))
  /\ (forall es,
        FileServer.hasSuffix path FileServer.indexPage = false ->
        FileServer.hasSuffix path "/" = true ->
        FileServer.open root (FileServer.Clean path)
        = Some (FileServer.Dir es) ->
        FileServer.assoc "index.html" es = None ->
        reply = FileServer.Listing (FileServer.listed es)
        /\ FileServer.replyStatus reply = 200).
Proof.
  intros path reply. subst reply.
  split; [apply static_requests_reach_file_server|].
  unfold FileServer.serveFile.
  destruct (FileServer.hasSuffix path FileServer.indexPage) eqn:Hidx.
  { split; [reflexivity|]. split; [discriminate|]. split.
    - split; [intros [names H]; discriminate | intros [H _]; discriminate].
    - discriminate. }
  split; [discriminate|]. split.
  { intros _ Hopen. rewrite Hopen. split; reflexivity. }
  split.
  - split.
    + intros [names Hlist]. split; [reflexivity|].
      destruct (FileServer.open root (FileServer.Clean path))
        as [[data|es]|]; [|  |discriminate].
      { destruct (FileServer.hasSuffix path "/"); discriminate. }
      destruct (FileServer.hasSuffix path "/"); [|discriminate].
      split; [reflexivity|]. exists es. split; [reflexivity|].
      intros data Hi. rewrite Hi in Hlist. discriminate.
    + intros (_ & Hslash & es & Hopen & Hnofile).
      rewrite Hopen, Hslash. simpl.
      destruct (FileServer.assoc "index.html" es) as [[data|es']|] eqn:Hi.
      * exfalso. exact (Hnofile data eq_refl).
      * eexists. reflexivity.
      * eexists. reflexivity.
  - intros es _ Hslash Hopen Hi. rewrite Hopen, Hslash. simpl.
    rewrite Hi. split; reflexivity.
Qed.

Lemma static_missing_file_not_found_witness :
  FileServer.serveFile sampleFiles "/static/css/missing.css"
  = FileServer.NotFound
  /\ FileServer.serveFile sampleFiles "/static/js/"
     = FileServer.NotFound
  /\ FileServer.serveFile sampleFiles "/static/"
     = FileServer.Listing ["css/"]
  /\ FileServer.serveFile sampleFiles "/static/img/index.html"
     = FileServer.MovedPermanently "./".
Proof.
  split; [|split; [|split]].
  - apply (static_missing_file_not_found sampleFiles "css/missing.css");
      reflexivity.
  - apply (static_missing_file_not_found sampleFiles "js/"); reflexivity.
  - destruct (static_missing_file_not_found sampleFiles "")
      as (_ & _ & _ & _ & Hlist).
    apply (Hlist [("css", FileServer.Dir
                            [("main.css", FileServer.File "body {}")])]);
      reflexivity.
  - destruct (static_missing_file_not_found sampleFiles "img/index.html")
      as (_ & Hidx & _).
    apply Hidx. reflexivity.
Defined.

(** ** TLS *)

(** C7, as stated, fails: the configuration sets no cipher suites and no
    minimum version, and TLS 1.0 lies within its version bounds, so it
    does not restrict the protocol to modern versions. *)
Lemma tls_config_admits_tls10 :
  Tls.CipherSuites Main.tlsConfig = []
  /\ Tls.MinVersion Main.tlsConfig = 0
  /\ Tls.versionWithinBounds Main.tlsConfig Tls.VersionTLS10 = true
  /\ ~ modernVersion Tls.VersionTLS10
  /\ ~ (forall v, Tls.versionWithinBounds Main.tlsConfig v = true ->
                  modernVersion v).
Proof.
  split; [reflexivity|]. split; [reflexivity|]. split; [reflexivity|].
  assert (~ modernVersion Tls.VersionTLS10) as Hold.
  { unfold modernVersion, Tls.VersionTLS12, Tls.VersionTLS10. lia. }
  split; [exact Hold|]. intros H. apply Hold, H. reflexivity.
Qed.

(** C7, amended.  Once start-up has succeeded, [main] serves with
    [ListenAndServeTLS] on the fixed pair [./tls/cert.pem] and
    [./tls/key.pem] and in no other way.  The TLS configuration of the
    server restricts the curves to X25519 and P-256 and bounds the
    protocol version by TLS 1.3 from above; it names no minimum version
    and no cipher suites. *)
Theorem main_serves_tls_with_curve_preferences (addr : string)
    (db cache : option string) :
  match Main.main addr db cache with
  | Main.Fatal _ => db <> None \/ cache <> None
  | Main.ListenAndServe _ => False
  | Main.ListenAndServeTLS srv certFile keyFile =>
      certFile = "./tls/cert.pem" /\ keyFile = "./tls/key.pem"
      /\ Main.Addr srv = addr
      /\ Main.Handler srv = Routes.routes
      /\ Main.TLSConfig srv = Main.tlsConfig
  end
  /\ Tls.CurvePreferences Main.tlsConfig = [Tls.X25519; Tls.CurveP256]
  /\ (forall c, Tls.supportsCurve Main.tlsConfig c = true
                <-> c = Tls.X25519 \/ c = Tls.CurveP256)
  /\ (forall v, Tls.versionWithinBounds Main.tlsConfig v = true
                <-> v <= Tls.VersionTLS13)
  /\ Tls.MinVersion Main.tlsConfig = 0
  /\ Tls.CipherSuites Main.tlsConfig = [].
Proof.
  split.
  { unfold Main.main. destruct db; [left; discriminate|].
    destruct cache; [right; discriminate|]. repeat split. }
  split; [reflexivity|]. split.
  { intros c. destruct c; vm_compute; split; intros H;
      try discriminate; try reflexivity; auto;
      destruct H; discriminate. }
  split.
  { intros v. unfold Tls.versionWithinBounds. simpl.
    unfold Tls.VersionTLS13. rewrite Z.leb_le. reflexivity. }
  split; reflexivity.
Qed.

Lemma main_serves_tls_with_curve_preferences_witness :
  exists srv,
    Main.main ":4000" None None
    = Main.ListenAndServeTLS srv "./tls/cert.pem" "./tls/key.pem"
    /\ Main.TLSConfig srv = Main.tlsConfig
    /\ Tls.supportsCurve Main.tlsConfig Tls.CurveP384 = false.
Proof.
  pose proof (main_serves_tls_with_curve_preferences ":4000" None None)
    as (Hrun & _ & Hcurve & _).
  destruct (Main.main ":4000" None None) as [err|srv|srv certFile keyFile]
    eqn:Hmain; [discriminate Hmain|contradiction|].
  destruct Hrun as (-> & -> & _ & _ & Hcfg).
  exists srv. split; [reflexivity|]. split; [exact Hcfg|].
  destruct (Tls.supportsCurve Main.tlsConfig Tls.CurveP384) eqn:Hc;
    [|reflexivity].
  apply Hcurve in Hc. destruct Hc; discriminate.
Defined.

(** * Further properties of the handlers and helpers *)

(** ** The first-generation handlers *)

(** X1.  [home] greets at the path [/] and nowhere else: on a writer
    that has sent nothing, the path [/] gets status 200 with the
    greeting, every other path gets [http.NotFound] with status 404 and
    nothing of the greeting. *)
Theorem home_greets_only_at_root (w : Http.ResponseWriter) (r : Request) :
  Http.sent w = None ->
  (URLPath r = "/" ->
   Http.status (Handlers.home w r) = Some 200
   /\ Http.body (Handlers.home w r) = Http.body w +:+ "Hey from snippetbox")
  /\ (URLPath r <> "/" ->
      Handlers.home w r = Http.NotFound w
      /\ Http.status (Handlers.home w r) = Some 404
      /\ Http.body (Handlers.home w r)
         = Http.body w +:+ "404 page not found" +:+ Http.newline)
  /\ (Http.status (Handlers.home w r) = Some 200 <-> URLPath r = "/").
Proof.
  intros Hw. unfold Handlers.home.
  destruct (decide (URLPath r = "/")) as [Heq | Hne].
  - rewrite bool_decide_eq_false_2 by (intros H; exact (H Heq)).
    assert (Http.status (Http.Write "Hey from snippetbox" w) = Some 200) as Hs.
    { unfold Http.status, Http.Write, Http.WriteHeader. rewrite Hw. reflexivity. }
    split; [|split].
    + intros _. split; [exact Hs|].
      unfold Http.Write, Http.WriteHeader. rewrite Hw. reflexivity.
    + intros Hne. contradiction.
    + split; auto.
  - rewrite bool_decide_eq_true_2 by exact Hne.
    assert (Http.status (Http.NotFound w) = Some 404) as Hs.
    { apply Error_fresh_status. exact Hw. }
    split; [|split].
    + intros Heq. contradiction.
    + intros _. split; [reflexivity|]. split; [exact Hs|]. apply Error_body.
    + rewrite Hs. split; [discriminate | contradiction].
Qed.

Lemma home_greets_only_at_root_witness :
  let at_path p := Handlers.home Http.newResponseWriter
                     (mkRequest "GET" p [] [] "") in
  Http.status (at_path "/") = Some 200
  /\ Http.status (at_path "/favicon.ico") = Some 404.
Proof.
  intros at_path. split.
  - apply (home_greets_only_at_root Http.newResponseWriter
             (mkRequest "GET" "/" [] [] "")); reflexivity.
  - apply (home_greets_only_at_root Http.newResponseWriter
             (mkRequest "GET" "/favicon.ico" [] [] "")); [reflexivity|].
    discriminate.
Defined.

(** X2.  [snippetCreate] serves POST only.  Any other method is
    answered 405 with the text [Method not allowed]; the [Allow: POST]
    header, set before the status line, is among the headers sent, and
    the text of the create page is not written.  A POST is answered 200
    with that text, and the handler leaves the header map alone. *)
Theorem snippetCreate_allows_post_only (w : Http.ResponseWriter)
    (r : Request) :
  Http.sent w = None ->
  (Method r <> "POST" ->
   Http.status (Handlers.snippetCreate w r) = Some 405
   /\ (exists s, Http.sent (Handlers.snippetCreate w r) = Some s
                 /\ Http.sentHeader s !! "Allow" = Some ["POST"])
   /\ Http.body (Handlers.snippetCreate w r)
      = Http.body w +:+ "Method not allowed" +:+ Http.newline)
  /\ (Method r = "POST" ->
      Http.status (Handlers.snippetCreate w r) = Some 200
      /\ Http.header (Handlers.snippetCreate w r) = Http.header w
      /\ Http.body (Handlers.snippetCreate w r)
         = Http.body w +:+ "This will be used to create a snippet").
Proof.
  intros Hw. unfold Handlers.snippetCreate, Http.MethodPost. split.
  - intros Hne. rewrite bool_decide_eq_true_2 by exact Hne.
    assert (Http.sent (Http.HeaderSet "Allow" "POST" w) = None) as Hw'
      by exact Hw.
    split; [apply Error_fresh_status; exact Hw'|]. split.
    + eexists. split; [apply Error_fresh_sent; exact Hw'|]. simpl.
      rewrite lookup_insert_ne by discriminate.
      rewrite lookup_insert_ne by discriminate.
      rewrite lookup_delete_ne by discriminate.
      apply lookup_insert_eq.
    + rewrite Error_body. reflexivity.
  - intros Heq.
    rewrite bool_decide_eq_false_2 by (intros H; exact (H Heq)).
    unfold Http.status, Http.Write, Http.WriteHeader. rewrite Hw.
    repeat split.
Qed.

Lemma snippetCreate_allows_post_only_witness :
  Http.status (Handlers.snippetCreate Http.newResponseWriter
                 (mkRequest "GET" "/snippet/create" [] [] "")) = Some 405
  /\ Http.status (Handlers.snippetCreate Http.newResponseWriter
                    (mkRequest "POST" "/snippet/create" [] [] "")) = Some 200.
Proof.
  split.
  - apply (snippetCreate_allows_post_only Http.newResponseWriter
             (mkRequest "GET" "/snippet/create" [] [] "")); [reflexivity|].
    discriminate.
  - apply (snippetCreate_allows_post_only Http.newResponseWriter
             (mkRequest "POST" "/snippet/create" [] [] "")); reflexivity.
Defined.

(** X3.  [snippetView] displays a snippet exactly for a valid id: on a
    writer that has sent nothing, the status is 200 if and only if the
    [id] parameter parses without error to a number of at least 1, and
    the body then ends in the text followed by that number in decimal.
    The verb [%d] stays in the text as it is, since [fmt.Fprint] does
    not interpret it. *)
Theorem snippetView_displays_iff_valid (w : Http.ResponseWriter)
    (r : Request) :
  Http.sent w = None ->
  let s := QueryGet (URLQuery r) "id" in
  (Http.status (Handlers.snippetView w r) = Some 200
   <-> snd (Strconv.Atoi s) = None /\ 1 <= fst (Strconv.Atoi s))
  /\ (snd (Strconv.Atoi s) = None -> 1 <= fst (Strconv.Atoi s) ->
      Http.body (Handlers.snippetView w r)
      = Http.body w +:+ "Display a specific snippet with ID %d..."
        +:+ pretty (fst (Strconv.Atoi s))).
Proof.
  intros Hw s. unfold Handlers.snippetView. fold s.
  destruct (Strconv.Atoi s) as [id err] eqn:Hid. cbn [fst snd].
  assert (Http.status (Http.NotFound w) = Some 404) as Hnf.
  { apply Error_fresh_status. exact Hw. }
  destruct (decide (err = None)) as [-> | Herr].
  - rewrite bool_decide_eq_false_2 by (intros H; apply H; reflexivity).
    cbn [orb]. destruct (id <? 1) eqn:Hlt.
    + apply Z.ltb_lt in Hlt. split.
      * rewrite Hnf. split; [discriminate|]. intros [_ Hge]. lia.
      * intros _ Hge. lia.
    + apply Z.ltb_ge in Hlt.
      unfold Http.status, Http.Write, Http.WriteHeader,
        Handlers.snippetViewText.
      rewrite Hw. simpl. split; [split; auto|]. intros _ _. reflexivity.
  - rewrite bool_decide_eq_true_2 by exact Herr. cbn [orb]. split.
    + rewrite Hnf. split; [discriminate|].
      intros [Hnone _]. contradiction.
    + intros Hnone. contradiction.
Qed.

Lemma snippetView_displays_iff_valid_witness :
  let w := Handlers.snippetView Http.newResponseWriter
             (mkRequest "GET" "/snippet/view" [("id", "42")] [] "") in
  Http.status w = Some 200
  /\ Http.body w = "Display a specific snippet with ID %d...42".
Proof.
  intros w.
  destruct (snippetView_displays_iff_valid Http.newResponseWriter
              (mkRequest "GET" "/snippet/view" [("id", "42")] [] "")
              eq_refl) as [Hstatus Hbody].
  split.
  - apply Hstatus. split; [reflexivity|]. vm_compute. discriminate.
  - apply Hbody; [reflexivity|]. vm_compute. discriminate.
Defined.

Lemma QueryGet_absent q key :
  (forall v, (key, v) ∉ q) -> QueryGet q key = "".
Proof.
  induction q as [|[k v] q IH]; intros Habs; simpl; [reflexivity|].
  destruct (decide (k = key)) as [-> | Hne].
  - exfalso. apply (Habs v). apply elem_of_cons. left. reflexivity.
  - apply IH. intros v' Hin. apply (Habs v'). apply elem_of_cons. right.
    exact Hin.
Qed.

(** X4.  A snippet-view request that carries no [id] parameter at all,
    or an empty one first, is answered with [http.NotFound]: the
    missing parameter reads as the empty string, which does not
    parse. *)
Theorem snippetView_without_id_not_found (w : Http.ResponseWriter)
    (r : Request) :
  (forall v, ("id", v) ∉ URLQuery r) \/ QueryGet (URLQuery r) "id" = "" ->
  Handlers.snippetView w r = Http.NotFound w.
Proof.
  intros Hq.
  assert (QueryGet (URLQuery r) "id" = "") as Hempty.
  { destruct Hq as [Habs | He]; [apply QueryGet_absent; exact Habs | exact He]. }
  unfold Handlers.snippetView. rewrite Hempty. reflexivity.
Qed.

Lemma snippetView_without_id_not_found_witness :
  Http.status (Handlers.snippetView Http.newResponseWriter
                 (mkRequest "GET" "/snippet/view" [("page", "2")] [] ""))
  = Some 404.
Proof.
  rewrite (snippetView_without_id_not_found Http.newResponseWriter
             (mkRequest "GET" "/snippet/view" [("page", "2")] [] "")).
  - reflexivity.
  - left. intros v Hin. apply elem_of_cons in Hin as [Heq | Hin];
      [discriminate | apply elem_of_nil in Hin; contradiction].
Defined.

(** ** The helpers *)

Section HelperFacts.
Import Http.

Lemma Error_keeps_sent msg code w s :
  sent w = Some s -> sent (Error msg code w) = Some s.
Proof.
  intros Hw. unfold Error, Write, WriteHeader, HeaderSet, HeaderDel. simpl.
  repeat (rewrite Hw; simpl). reflexivity.
Qed.

Lemma Write_after_WriteHeader_keeps_sent buf code w s :
  sent w = Some s -> sent (Write buf (WriteHeader code w)) = Some s.
Proof.
  intros Hw. unfold Write, WriteHeader.
  repeat (rewrite Hw; simpl). reflexivity.
Qed.

Lemma render_response stack app w status page data :
  snd (render stack app w status page data) = genericError w
  \/ exists buf, snd (render stack app w status page data)
                 = Write buf (WriteHeader status w).
Proof.
  unfold render, serverError, genericError.
  destruct (templateCache app !! page) as [ts|]; [|left; reflexivity].
  destruct (ExecuteTemplate ts "base" data) as [buf [e|]];
    [left; reflexivity|].
  right. exists buf. reflexivity.
Qed.

End HelperFacts.

(** X5.  For an error status (400 to 599) on a response of which
    nothing has been sent, [clientError] answers with that status and
    its standard description followed by a newline, as plain text that
    must not be sniffed; every header set earlier, other than
    [Content-Type], [X-Content-Type-Options] and [Content-Length], is
    sent along unchanged.  [notFound] is the case 404, with the body
    [Not Found]. *)
Theorem clientError_response (w : Http.ResponseWriter) (code : Z) :
  Http.sent w = None ->
  400 <= code < 600 ->
  Http.status (clientError w code) = Some code
  /\ Http.body (clientError w code)
     = Http.body w +:+ Http.StatusText code +:+ Http.newline
  /\ (exists s,
        Http.sent (clientError w code) = Some s
        /\ Http.sentHeader s !! "Content-Type"
           = Some ["text/plain; charset=utf-8"]
        /\ Http.sentHeader s !! "X-Content-Type-Options" = Some ["nosniff"]
        /\ forall k, k <> "Content-Type" -> k <> "X-Content-Type-Options" ->
                     k <> "Content-Length" ->
                     Http.sentHeader s !! k = Http.header w !! k)
  /\ Http.status (notFound w) = Some 404
  /\ Http.body (notFound w) = Http.body w +:+ "Not Found" +:+ Http.newline.
Proof.
  intros Hw _. unfold notFound, clientError.
  split; [apply Error_fresh_status; exact Hw|].
  split; [apply Error_body|]. split.
  - eexists. split; [apply Error_fresh_sent; exact Hw|]. simpl.
    split.
    { rewrite lookup_insert_ne by discriminate. apply lookup_insert_eq. }
    split; [apply lookup_insert_eq|].
    intros k Hct Hxc Hcl.
    rewrite lookup_insert_ne by congruence.
    rewrite lookup_insert_ne by congruence.
    apply lookup_delete_ne. congruence.
  - split; [apply Error_fresh_status; exact Hw|]. apply Error_body.
Qed.

Lemma clientError_response_witness :
  let w := Http.HeaderSet "Content-Type" "text/html"
             (Http.HeaderSet "X-Frame-Options" "deny" Http.newResponseWriter) in
  Http.status (clientError w 400) = Some 400
  /\ Http.body (clientError w 400) = "Bad Request" +:+ Http.newline
  /\ exists s, Http.sent (clientError w 400) = Some s
               /\ Http.sentHeader s !! "Content-Type"
                  = Some ["text/plain; charset=utf-8"]
               /\ Http.sentHeader s !! "X-Frame-Options" = Some ["deny"].
Proof.
  intros w.
  destruct (clientError_response w 400 eq_refl ltac:(lia))
    as (Hs & Hb & (s & Hsent & Hct & _ & Hother) & _).
  split; [exact Hs|]. split; [exact Hb|].
  exists s. split; [exact Hsent|]. split; [exact Hct|].
  rewrite (Hother "X-Frame-Options") by discriminate. reflexivity.
Defined.

(** X6.  Once the status line of a response has gone out, no helper
    changes it: after [serverError], [clientError] or [render] on such a
    writer the status and the headers sent are the ones sent before
    (the 500 of a server error included).  And no helper takes back
    what was written: the body before is a prefix of the body after. *)
Theorem helpers_keep_what_was_sent (stack : string) (app : application)
    (w : Http.ResponseWriter) (err : string) (code status : Z)
    (page : string) (data : templateData) :
  (forall s, Http.sent w = Some s ->
     Http.sent (snd (serverError stack app w err)) = Some s
     /\ Http.sent (clientError w code) = Some s
     /\ Http.sent (snd (render stack app w status page data)) = Some s)
  /\ (exists t, Http.body (snd (serverError stack app w err))
                = Http.body w +:+ t)
  /\ (exists t, Http.body (clientError w code) = Http.body w +:+ t)
  /\ (exists t, Http.body (snd (render stack app w status page data))
                = Http.body w +:+ t).
Proof.
  split; [|split; [|split]].
  - intros s Hw. split; [apply Error_keeps_sent; exact Hw|].
    split; [apply Error_keeps_sent; exact Hw|].
    destruct (render_response stack app w status page data) as [-> | [buf ->]].
    + apply Error_keeps_sent. exact Hw.
    + apply Write_after_WriteHeader_keeps_sent. exact Hw.
  - eexists. apply Error_body.
  - eexists. apply Error_body.
  - destruct (render_response stack app w status page data) as [-> | [buf ->]].
    + eexists. apply Error_body.
    + eexists. apply Write_after_WriteHeader_body.
Qed.

Lemma helpers_keep_what_was_sent_witness :
  let w := Http.Write "<html>" Http.newResponseWriter in
  Http.status (snd (serverError "" (mkApplication [] [] ∅) w "boom"))
  = Some 200.
Proof.
  intros w.
  destruct (helpers_keep_what_was_sent "" (mkApplication [] [] ∅) w "boom"
              0 0 "" (mkTemplateData "" 0 false "" ∅)) as [Hkeep _].
  destruct (Hkeep (Http.mkSent 200 ∅) eq_refl) as [Hs _].
  unfold Http.status. rewrite Hs. reflexivity.
Defined.

(** X7.  [render] logs exactly when it fails.  On success the
    application comes back as it was.  A missing page adds one entry to
    the error log, which names the page; a failed execution adds one
    entry with the error of the template; either entry ends in the
    stack trace.  The info log and the template cache are never
    touched. *)
Theorem render_logs_only_failures (stack : string) (app : application)
    (w : Http.ResponseWriter) (status : Z) (page : string)
    (data : templateData) :
  let app' := fst (render stack app w status page data) in
  (forall ts buf,
      templateCache app !! page = Some ts ->
      ExecuteTemplate ts "base" data = (buf, None) -> app' = app)
  /\ (templateCache app !! page = None ->
      errorLog app'
      = (errorLog app
         ++ [("the template " +:+ page +:+ " does not exist")
             +:+ Http.newline +:+ stack])%list)
  /\ (forall ts partial e,
        templateCache app !! page = Some ts ->
        ExecuteTemplate ts "base" data = (partial, Some e) ->
        errorLog app'
        = (errorLog app ++ [e +:+ Http.newline +:+ stack])%list)
  /\ infoLog app' = infoLog app
  /\ templateCache app' = templateCache app.
Proof.
  unfold render, serverError; simpl.
  destruct (templateCache app !! page) as [ts|] eqn:Hp.
  - destruct (ExecuteTemplate ts "base" data) as [buf [e|]] eqn:He; simpl.
    + split.
      { intros ts' buf' Hts He'. injection Hts as <-.
        rewrite He in He'. discriminate. }
      split; [discriminate|]. split; [|split; reflexivity].
      intros ts' partial e' Hts He'. injection Hts as <-.
      rewrite He in He'. injection He' as _ <-. reflexivity.
    + split; [reflexivity|]. split; [discriminate|].
      split; [|split; reflexivity].
      intros ts' partial e' Hts He'. injection Hts as <-.
      rewrite He in He'. discriminate.
  - simpl. split; [discriminate|]. split.
    + intros _. reflexivity.
    + split; [discriminate|]. split; reflexivity.
Qed.

Lemma render_logs_only_failures_witness :
  let app := mkApplication ["earlier"] [] ∅ in
  errorLog (fst (render "goroutine 1" app Http.newResponseWriter 200
                   "home.tmpl" (mkTemplateData "" 2026 false "" ∅)))
  = ["earlier";
     "the template home.tmpl does not exist" +:+ Http.newline
     +:+ "goroutine 1"].
Proof.
  intros app.
  destruct (render_logs_only_failures "goroutine 1" app Http.newResponseWriter
              200 "home.tmpl" (mkTemplateData "" 2026 false "" ∅))
    as (_ & Hmissing & _).
  rewrite Hmissing by apply lookup_empty. reflexivity.
Defined.

(** X8.  [render] looks at one entry of the template cache, the one of
    the page asked for: adding, replacing or removing the template of
    any other page changes neither the response nor the error log, and
    a page put into the cache is the one that is rendered. *)
Theorem render_uses_only_its_page (stack : string) (el il : Logger)
    (cache : gmap string Template) (w : Http.ResponseWriter) (status : Z)
    (page other : string) (t : Template) (data : templateData) :
  (other <> page ->
   let r0 := render stack (mkApplication el il cache) w status page data in
   let r1 := render stack (mkApplication el il (<[other := t]> cache))
               w status page data in
   let r2 := render stack (mkApplication el il (delete other cache))
               w status page data in
   snd r1 = snd r0 /\ snd r2 = snd r0
   /\ errorLog (fst r1) = errorLog (fst r0)
   /\ errorLog (fst r2) = errorLog (fst r0))
  /\ (forall buf,
        ExecuteTemplate t "base" data = (buf, None) ->
        snd (render stack (mkApplication el il (<[page := t]> cache))
               w status page data)
        = Http.Write buf (Http.WriteHeader status w)).
Proof.
  split.
  - intros Hne. unfold render; simpl.
    rewrite lookup_insert_ne by exact Hne.
    rewrite lookup_delete_ne by exact Hne.
    destruct (cache !! page) as [ts|]; [|repeat split].
    destruct (ExecuteTemplate ts "base" data) as [buf [e|]]; repeat split.
  - intros buf He. unfold render; simpl.
    rewrite lookup_insert_eq, He. reflexivity.
Qed.

Lemma render_uses_only_its_page_witness :
  let home := mkTemplate (fun _ td => ("<h1>" +:+ Flash td +:+ "</h1>", None)) in
  let view := mkTemplate (fun _ _ => ("", Some "broken")) in
  let td := mkTemplateData "hi" 2026 false "" ∅ in
  Http.body (snd (render "" (mkApplication [] [] (<["view.tmpl" := view]>
                                                    (<["home.tmpl" := home]> ∅)))
                    Http.newResponseWriter 200 "home.tmpl" td))
  = "<h1>hi</h1>".
Proof.
  intros home view td.
  destruct (render_uses_only_its_page "" [] [] (<["home.tmpl" := home]> ∅)
              Http.newResponseWriter 200 "home.tmpl" "view.tmpl" view td)
    as [Hother _].
  destruct Hother as (-> & _); [discriminate|].
  destruct (render_uses_only_its_page "" [] [] ∅
              Http.newResponseWriter 200 "home.tmpl" "view.tmpl" home td)
    as [_ Hput].
  rewrite (Hput "<h1>hi</h1>" eq_refl). reflexivity.
Defined.

(** ** The envelope and the flash message *)

Lemma newTemplateData_envelope_sess key now sess r :
  snd (newTemplateData key now sess r) = delete "flash" sess.
Proof.
  unfold newTemplateData, PopString, Pop.
  destruct (sess !! "flash") as [v|] eqn:Hf; simpl; [reflexivity|].
  symmetry. apply delete_id. exact Hf.
Qed.

(** X9.  A flash message is shown once.  The session that comes back
    from [newTemplateData] differs from the one that went in at the key
    ["flash"] only, and an envelope built from it next, for whatever
    request and time, carries the empty flash message and leaves that
    session as it is. *)
Theorem flash_message_is_shown_once (key : ctxKey) (now later : Time)
    (sess : Session) (r r2 : Request) :
  let sess1 := snd (newTemplateData key now sess r) in
  let second := newTemplateData key later sess1 r2 in
  Flash (fst second) = ""
  /\ snd second = sess1
  /\ (forall k, k <> "flash" -> sess1 !! k = sess !! k)
  /\ (forall msg, sess !! "flash" = Some (VString msg) ->
                  Flash (fst (newTemplateData key now sess r)) = msg).
Proof.
  simpl.
  assert (snd (newTemplateData key now sess r) = delete "flash" sess) as ->.
  { apply (newTemplateData_envelope_sess key now sess r). }
  unfold newTemplateData, PopString, Pop.
  rewrite lookup_delete_eq. simpl.
  split; [reflexivity|]. split; [reflexivity|]. split.
  - intros k Hk. apply lookup_delete_ne. congruence.
  - intros msg Hmsg. rewrite Hmsg. reflexivity.
Qed.

Lemma flash_message_is_shown_once_witness :
  let key := mkCtxKey "main.contextKey" "isAuthenticated" in
  let r := mkRequest "GET" "/" [] [] "tok" in
  let sess : Session := <["flash" := VString "Snippet created"]>
                          (<["authenticatedUserID" := VInt 7]> ∅) in
  let first := newTemplateData key (mkTime 2026) sess r in
  Flash (fst first) = "Snippet created"
  /\ snd first !! "authenticatedUserID" = Some (VInt 7)
  /\ Flash (fst (newTemplateData key (mkTime 2026) (snd first) r)) = "".
Proof.
  intros key r sess first.
  destruct (flash_message_is_shown_once key (mkTime 2026) (mkTime 2026)
              sess r r) as (Hsecond & _ & Hkeys & Hmsg).
  split; [apply Hmsg; reflexivity|]. split; [|exact Hsecond].
  unfold first. rewrite Hkeys by discriminate. reflexivity.
Defined.

(** ** The authentication flag under context updates *)

(** X10.  [isAuthenticated] reads the innermost value of its key.  A
    request whose context was extended with a boolean under the key
    answers that boolean, whatever the context held before; extended
    with a value of another type under the key it is anonymous, even if
    the flag was set further out; extended under any other key (one of
    the same name but another type included) it answers as before. *)
Theorem isAuthenticated_after_WithValue (key : ctxKey) (m p : string)
    (q : list (string * string)) (ctx : Context) (tok : string) :
  let r := mkRequest m p q ctx tok in
  (forall b, isAuthenticated key
               (mkRequest m p q (WithValue ctx key (VBool b)) tok) = b)
  /\ (forall v, (forall b, v <> VBool b) ->
                isAuthenticated key
                  (mkRequest m p q (WithValue ctx key v) tok) = false)
  /\ (forall key' v, key' <> key ->
                     isAuthenticated key
                       (mkRequest m p q (WithValue ctx key' v) tok)
                     = isAuthenticated key r).
Proof.
  unfold isAuthenticated, WithValue; simpl. split; [|split].
  - intros b. rewrite decide_True by reflexivity. destruct b; reflexivity.
  - intros v Hv. rewrite decide_True by reflexivity.
    destruct v as [b| | |]; try reflexivity. exfalso. exact (Hv b eq_refl).
  - intros key' v Hne. rewrite decide_False by exact Hne. reflexivity.
Qed.

Lemma isAuthenticated_after_WithValue_witness :
  let key := mkCtxKey "main.contextKey" "isAuthenticated" in
  let plain := mkCtxKey "string" "isAuthenticated" in
  isAuthenticated key
    (mkRequest "GET" "/" [] (WithValue [(key, VBool true)] key
                               (VString "yes")) "") = false
  /\ isAuthenticated key
       (mkRequest "GET" "/" [] (WithValue [] plain (VBool true)) "") = false.
Proof.
  intros key plain.
  destruct (isAuthenticated_after_WithValue key "GET" "/" []
              [(key, VBool true)] "") as (_ & Hother & _).
  destruct (isAuthenticated_after_WithValue key "GET" "/" [] [] "")
    as (_ & _ & Hkey).
  split.
  - apply Hother. intros b. discriminate.
  - rewrite (Hkey plain (VBool true)) by discriminate. reflexivity.
Defined.

(** ** The route table, continued *)

Ltac split_bools :=
  repeat match goal with
    | H : _ && _ = true |- _ => apply andb_prop in H as [? ?]
    | H : bool_decide _ = true |- _ => apply bool_decide_eq_true in H
    | H : negb (bool_decide _) = true |- _ =>
        apply negb_true_iff, bool_decide_eq_false in H
    end.

Lemma routes_match_at_most_one (method path : string)
    (r1 r2 : HttpRouter.Route) :
  In r1 (HttpRouter.routes Routes.router) ->
  In r2 (HttpRouter.routes Routes.router) ->
  HttpRouter.matches method path r1 = true ->
  HttpRouter.matches method path r2 = true ->
  r1 = r2.
Proof.
  intros H1 H2. unfold HttpRouter.matches.
  remember (HttpRouter.segments path) as l eqn:Hl. clear Hl.
  cbv in H1, H2.
  repeat (destruct H1 as [<- | H1]); try contradiction;
  repeat (destruct H2 as [<- | H2]); try contradiction;
  try (intros _ _; reflexivity);
  cbn [HttpRouter.routeMethod HttpRouter.routePath];
  intros M1 M2; exfalso;
  apply andb_prop in M1 as [M1 S1]; apply andb_prop in M2 as [M2 S2];
  apply bool_decide_eq_true in M1; apply bool_decide_eq_true in M2;
  try congruence;
  vm_compute HttpRouter.segments in S1, S2;
  destruct l as [|s1 [|s2 [|s3 [|s4 l]]]]; cbn in S1, S2;
  try discriminate; split_bools; congruence.
Qed.

(** X11.  The route table is unambiguous: no request matches two of the
    registered routes.  So the order of the registrations in [routes]
    does not matter: the route that serves a request is the one
    registered route that matches it, and a request is left to the
    router exactly when no registered route matches. *)
Theorem routes_are_unambiguous (method path : string) :
  (forall r1 r2,
      In r1 (HttpRouter.routes Routes.router) ->
      In r2 (HttpRouter.routes Routes.router) ->
      HttpRouter.matches method path r1 = true ->
      HttpRouter.matches method path r2 = true ->
      r1 = r2)
  /\ (forall r,
        HttpRouter.lookup Routes.router method path = Some r
        <-> In r (HttpRouter.routes Routes.router)
            /\ HttpRouter.matches method path r = true)
  /\ (HttpRouter.lookup Routes.router method path = None
      <-> forall r, In r (HttpRouter.routes Routes.router) ->
                    HttpRouter.matches method path r = false).
Proof.
  split; [intros r1 r2; apply routes_match_at_most_one|]. split.
  - intros r. unfold HttpRouter.lookup. split.
    + intros Hfind. apply find_some in Hfind. exact Hfind.
    + intros [Hin Hm].
      destruct (find (HttpRouter.matches method path)
                  (HttpRouter.routes Routes.router)) as [r'|] eqn:Hfind.
      * apply find_some in Hfind as [Hin' Hm'].
        f_equal. exact (routes_match_at_most_one _ _ _ _ Hin' Hin Hm' Hm).
      * rewrite (find_none _ _ Hfind r Hin) in Hm. discriminate.
  - unfold HttpRouter.lookup. split.
    + intros Hfind r Hin. exact (find_none _ _ Hfind r Hin).
    + intros Hnone.
      destruct (find (HttpRouter.matches method path)
                  (HttpRouter.routes Routes.router)) as [r'|] eqn:Hfind;
        [|reflexivity].
      apply find_some in Hfind as [Hin' Hm'].
      rewrite (Hnone r' Hin') in Hm'. discriminate.
Qed.

Lemma routes_are_unambiguous_witness :
  HttpRouter.lookup Routes.router "GET" "/snippet/create"
  = Some (HttpRouter.mkRoute "GET" "/snippet/create"
            (protectedChain (HandlerFunc snippetCreate))).
Proof.
  apply (proj1 (proj2 (routes_are_unambiguous "GET" "/snippet/create"))).
  split; [|reflexivity].
  cbv. do 8 right. left. reflexivity.
Defined.

(** ** Chains *)

Section ChainFacts.
Context {E : Type}.

Lemma Then_nil (h : Handler E) : Alice.Then [] h = h.
Proof. reflexivity. Qed.

Lemma Then_cons m c (h : Handler E) :
  Alice.Then (m :: c) h = Wrap m (Alice.Then c h).
Proof.
  unfold Alice.Then. simpl. rewrite fold_left_app. reflexivity.
Qed.

End ChainFacts.

(** X12.  How the chains of [routes] compose.  [c.Then(h)] wraps [h] so
    that the constructors of [c] are entered in the order in which they
    were given to [alice.New], before whatever [h] itself is wrapped
    in; [c.Append(d).Then(h)] is [c.Then(d.Then(h))]; and a chain with
    no constructor leaves the handler as it is. *)
Theorem chains_compose {E : Type} (c d : Alice.Chain) (h : Handler E)
    (fn : E) :
  unwrap (Alice.Then c h) = ((c ++ fst (unwrap h))%list, snd (unwrap h))
  /\ Alice.Then (Alice.Append c d) h = Alice.Then c (Alice.Then d h)
  /\ Alice.Then (Alice.New []) h = h
  /\ unwrap (Alice.ThenFunc (Alice.Append (Alice.New c) d) fn)
     = ((c ++ d)%list, fn).
Proof.
  assert (forall (c : Alice.Chain) (h : Handler E),
             unwrap (Alice.Then c h)
             = ((c ++ fst (unwrap h))%list, snd (unwrap h))) as Hunwrap.
  { clear. intros c h. induction c as [|m c IH].
    - rewrite Then_nil. destruct (unwrap h). reflexivity.
    - rewrite Then_cons. simpl. rewrite IH. reflexivity. }
  split; [apply Hunwrap|]. split.
  - unfold Alice.Append. induction c as [|m c IH]; [reflexivity|].
    simpl. rewrite !Then_cons, IH. reflexivity.
  - split; [reflexivity|].
    unfold Alice.ThenFunc, Alice.Append, Alice.New. rewrite Hunwrap. simpl.
    rewrite app_nil_r. reflexivity.
Qed.

(** X13.  The three protected handlers cannot be reached around the
    authentication requirement: whatever the method and the path, a
    request that ends up in [snippetCreate], [snippetCreatePost] or
    [userLogoutPost] has passed [requireAuthentication], as the last
    middleware and after session loading, CSRF validation and identity
    propagation; and a request that ends up in any other application
    handler has passed these three and no authentication requirement. *)
Theorem protected_handlers_only_behind_authentication
    (method path : string) (ms : list Middleware) (f : AppHandler) :
  Routes.pipeline method path = (ms, Routes.ToHandler (HandlerFunc f)) ->
  if bool_decide (f ∈ [snippetCreate; snippetCreatePost; userLogoutPost])
  then ms = (standardChain ++ dynamicChain ++ [requireAuthentication])%list
  else ms = (standardChain ++ dynamicChain)%list.
Proof.
  unfold Routes.pipeline. rewrite unwrap_routes.
  destruct (HttpRouter.lookup Routes.router method path) as [route|] eqn:Hr;
    [|discriminate].
  apply find_some in Hr as [Hin _]. cbv in Hin.
  repeat (destruct Hin as [<- | Hin];
          [first [ intros Heq; vm_compute in Heq; discriminate Heq
                 | intros Heq; vm_compute in Heq;
                   injection Heq as <- <-; reflexivity ]|]).
  contradiction.
Qed.

Lemma protected_handlers_only_behind_authentication_witness :
  fst (Routes.pipeline "POST" "/snippet/create")
  = [recoverPanic; logRequest; secureHeaders; LoadAndSave; noSurf;
     authenticate; requireAuthentication].
Proof.
  exact (protected_handlers_only_behind_authentication
           "POST" "/snippet/create"
           (fst (Routes.pipeline "POST" "/snippet/create"))
           snippetCreatePost eq_refl).
Defined.

(** ** Static files, continued *)

Section CleanFacts.
Import FileServer.

Lemma Clean_static_parent rest :
  Clean ("/static/../" +:+ rest) = Clean ("/" +:+ rest).
Proof.
  unfold Clean. simpl. change ("" +:+ rest) with rest.
  pose proof (split_not_nil rest) as Hne.
  destruct (HttpRouter.split rest) as [|seg more]; [contradiction|].
  reflexivity.
Qed.

End CleanFacts.

(** X14.  The request path is cleaned only after routing, and the file
    server opens names from the root of the embedded file tree, not
    from [static].  A GET for [/static/../rest] is routed to the file
    server like any other path under [/static/] and opens the same name
    as [/rest].  So, paths ending in [/index.html] aside, it is answered
    404 exactly when [/rest] names nothing in the whole tree, whether
    or not the name lies under [static]. *)
Theorem static_route_is_rooted_at_tree (root : FileServer.Node)
    (rest : string) :
  let escaping := "/static/../" +:+ rest in
  Routes.pipeline "GET" escaping
  = (standardChain, Routes.ToHandler FileServer)
  /\ FileServer.Clean escaping = FileServer.Clean ("/" +:+ rest)
  /\ (FileServer.hasSuffix escaping FileServer.indexPage = false ->
      (FileServer.serveFile root escaping = FileServer.NotFound
       <-> FileServer.open root (FileServer.Clean ("/" +:+ rest)) = None)).
Proof.
  intros escaping. split; [|split].
  - exact (static_requests_reach_file_server ("../" +:+ rest)).
  - apply Clean_static_parent.
  - intros Hidx. unfold FileServer.serveFile. rewrite Hidx.
    unfold escaping at 1. rewrite Clean_static_parent.
    destruct (FileServer.open root (FileServer.Clean ("/" +:+ rest)))
      as [[data|es]|].
    + destruct (FileServer.hasSuffix escaping "/");
        split; discriminate.
    + destruct (FileServer.hasSuffix escaping "/"); simpl;
        [destruct (FileServer.assoc "index.html" es) as [[?|?]|]|];
        split; discriminate.
    + split; reflexivity.
Qed.

Lemma static_route_is_rooted_at_tree_witness :
  FileServer.serveFile sampleFiles "/static/../html/base.tmpl"
  <> FileServer.NotFound
  /\ FileServer.serveFile sampleFiles "/static/../html/none.tmpl"
     = FileServer.NotFound.
Proof.
  split.
  - intros H.
    apply (static_route_is_rooted_at_tree sampleFiles "html/base.tmpl") in H;
      [discriminate H | reflexivity].
  - apply (static_route_is_rooted_at_tree sampleFiles "html/none.tmpl");
      reflexivity.
Defined.

(** ** Start-up *)

(** X15.  [openDB] opens with the driver [mysql] and the given DSN.
    When [sql.Open] fails it returns no pool and the error of
    [sql.Open]; when the ping fails it returns no pool and the error of
    the ping; otherwise it returns the pool that [sql.Open] yielded and
    no error.  [main] ends fatally with that very error of [openDB]
    whatever the template cache did, ends fatally with the error of the
    template cache when only that failed, and gets to listen (with TLS,
    on the fixed certificate pair) exactly when all three succeeded. *)
Theorem startup_fails_before_listening
    (sqlOpen : string -> string -> DB + string) (ping : DB -> option string)
    (addr dsn : string) (cache : option string) :
  let opened := openDB sqlOpen ping dsn in
  let run := Main.main addr (snd opened) cache in
  (forall e, sqlOpen "mysql" dsn = inr e ->
             opened = (None, Some e) /\ run = Main.Fatal e)
  /\ (forall db e, sqlOpen "mysql" dsn = inl db -> ping db = Some e ->
                   opened = (None, Some e) /\ run = Main.Fatal e)
  /\ (forall db, sqlOpen "mysql" dsn = inl db -> ping db = None ->
                 opened = (Some db, None)
                 /\ (forall e, cache = Some e -> run = Main.Fatal e)
                 /\ (cache = None ->
                     exists srv,
                       run = Main.ListenAndServeTLS srv "./tls/cert.pem"
                                                    "./tls/key.pem"
                       /\ Main.Addr srv = addr))
  /\ ((exists srv certFile keyFile,
          run = Main.ListenAndServeTLS srv certFile keyFile)
      <-> (exists db, sqlOpen "mysql" dsn = inl db /\ ping db = None)
          /\ cache = None).
Proof.
  unfold openDB.
  destruct (sqlOpen "mysql" dsn) as [db|e] eqn:Hopen; cbn [fst snd].
  - destruct (ping db) as [e|] eqn:Hping; cbn [fst snd].
    + split; [discriminate|]. split.
      { intros db' e' Heq Hp. injection Heq as <-.
        rewrite Hping in Hp. injection Hp as <-. split; reflexivity. }
      split.
      { intros db' Heq Hp. injection Heq as <-. congruence. }
      split; [intros (? & ? & ? & H); discriminate|].
      intros [(db' & Heq & Hp) _]. injection Heq as <-. congruence.
    + split; [discriminate|]. split.
      { intros db' e' Heq Hp. injection Heq as <-. congruence. }
      split.
      { intros db' Heq _. injection Heq as <-. split; [reflexivity|].
        split; [intros e ->; reflexivity|].
        intros ->. eexists. split; reflexivity. }
      destruct cache as [e|]; simpl.
      * split; [intros (? & ? & ? & H); discriminate|].
        intros [_ H]. discriminate.
      * split; [|eauto]. intros _. split; [eauto|reflexivity].
  - split.
    { intros e' Heq. injection Heq as <-. split; reflexivity. }
    split; [discriminate|]. split; [discriminate|].
    split; [intros (? & ? & ? & H); discriminate|].
    intros [(db' & Heq & _) _]. discriminate.
Qed.

Lemma startup_fails_before_listening_witness :
  let sqlOpen := fun driver dsn => inl (mkDB driver dsn) : DB + string in
  let ping := fun _ : DB => Some "dial tcp 127.0.0.1:3306: connection refused" in
  Main.main ":4000" (snd (openDB sqlOpen ping "web:pass@/snippetbox"))
            (Some "template: parse error")
  = Main.Fatal "dial tcp 127.0.0.1:3306: connection refused".
Proof.
  intros sqlOpen ping.
  destruct (startup_fails_before_listening sqlOpen ping ":4000"
              "web:pass@/snippetbox" (Some "template: parse error"))
    as (_ & Hping & _).
  apply (Hping (mkDB "mysql" "web:pass@/snippetbox")); reflexivity.
Defined.

(** ** Decimal numerals and [Atoi] *)

Section AtoiRoundTrip.
Import Strconv.

Lemma pretty_N_char_digit (x : N) :
  (x < 10)%N ->
  isDigit (pretty_N_char x) = true /\ digitVal (pretty_N_char x) = Z.of_N x.
Proof.
  intros Hx.
  assert (x = 0 \/ x = 1 \/ x = 2 \/ x = 3 \/ x = 4 \/ x = 5 \/ x = 6
          \/ x = 7 \/ x = 8 \/ x = 9)%N as Hcases by lia.
  repeat (destruct Hcases as [-> | Hcases]; [split; reflexivity|]).
  subst x. split; reflexivity.
Qed.

Lemma digits_pretty_N_go (x : N) :
  exists k, 0 <= k /\ forall s acc,
    digits (pretty_N_go x s) acc = digits s (acc * 10 ^ k + Z.of_N x).
Proof.
  induction (N.lt_wf_0 x) as [x _ IH].
  destruct (decide (x = 0)%N) as [-> | Hx].
  - exists 0. split; [lia|]. intros s acc. rewrite pretty_N_go_0.
    f_equal. change (10 ^ 0) with 1. change (Z.of_N 0) with 0. lia.
  - assert (0 < x)%N as Hpos by lia.
    destruct (IH (x `div` 10)%N) as (k & Hk & Hgo).
    { apply N.div_lt; lia. }
    exists (k + 1). split; [lia|]. intros s acc.
    rewrite pretty_N_go_step by exact Hpos. rewrite Hgo. simpl.
    destruct (pretty_N_char_digit (x `mod` 10)%N) as [-> ->].
    { apply N.mod_lt. discriminate. }
    f_equal. rewrite Z.pow_add_r by lia.
    pose proof (N.div_mod x 10 ltac:(discriminate)) as Hdm.
    apply (f_equal Z.of_N) in Hdm. rewrite N2Z.inj_add, N2Z.inj_mul in Hdm.
    change (Z.of_N 10) with 10 in Hdm. lia.
Qed.

Lemma pretty_N_go_head (x : N) : forall s,
  (0 < x)%N ->
  exists c rest, pretty_N_go x s = String c rest /\ isDigit c = true.
Proof.
  induction (N.lt_wf_0 x) as [x _ IH]. intros s Hpos.
  rewrite pretty_N_go_step by exact Hpos.
  destruct (decide (x `div` 10 = 0)%N) as [Hz | Hnz].
  - rewrite Hz, pretty_N_go_0. eexists. eexists. split; [reflexivity|].
    apply pretty_N_char_digit. apply N.mod_lt. discriminate.
  - apply IH; [apply N.div_lt; lia | apply N.neq_0_lt_0; exact Hnz].
Qed.

Lemma Atoi_digits_string c rest n :
  isDigit c = true -> digits (String c rest) 0 = Some n ->
  Atoi (String c rest)
  = if n <=? maxInt then (n, None) else (maxInt, Some ErrRange).
Proof.
  intros Hc Hd. unfold Atoi.
  assert (bool_decide (c = "-"%char) = false) as ->.
  { apply bool_decide_eq_false. intros ->. discriminate Hc. }
  assert (bool_decide (c = "+"%char) = false) as ->.
  { apply bool_decide_eq_false. intros ->. discriminate Hc. }
  cbv beta iota zeta delta [orb]. rewrite Hd. reflexivity.
Qed.

Lemma Atoi_pretty_positive (p : positive) :
  Z.pos p <= maxInt -> Atoi (pretty (Z.pos p)) = (Z.pos p, None).
Proof.
  intros Hmax. unfold pretty, pretty_Z, pretty, pretty_positive, pretty, pretty_N.
  rewrite decide_False by discriminate.
  destruct (pretty_N_go_head (N.pos p) "" ltac:(reflexivity))
    as (c & rest & Heq & Hc).
  destruct (digits_pretty_N_go (N.pos p)) as (k & _ & Hgo).
  specialize (Hgo "" 0). rewrite Heq in *.
  rewrite (Atoi_digits_string c rest (Z.pos p) Hc).
  - rewrite (proj2 (Z.leb_le _ _) Hmax). reflexivity.
  - rewrite Hgo. simpl. reflexivity.
Qed.

Lemma Atoi_pretty (z : Z) :
  minInt <= z <= maxInt -> Atoi (pretty z) = (z, None).
Proof.
  intros [Hmin Hmax]. destruct z as [|p|p].
  - reflexivity.
  - apply Atoi_pretty_positive. exact Hmax.
  - unfold pretty, pretty_Z, pretty, pretty_positive, pretty, pretty_N.
    rewrite decide_False by discriminate.
    destruct (pretty_N_go_head (N.pos p) "" ltac:(reflexivity))
      as (c & rest & Heq & Hc).
    destruct (digits_pretty_N_go (N.pos p)) as (k & _ & Hgo).
    specialize (Hgo "" 0). rewrite Heq in *.
    change ("-" +:+ String c rest) with (String "-"%char (String c rest)).
    unfold Atoi. rewrite bool_decide_eq_true_2 by reflexivity.
    cbv beta iota zeta delta [orb]. rewrite Hgo. simpl digits.
    change (0 * 10 ^ k + Z.of_N (N.pos p)) with (0 * 10 ^ k + Z.pos p).
    replace (0 * 10 ^ k + Z.pos p) with (Z.pos p) by lia.
    assert ((Z.pos p <=? (- minInt)) = true) as ->.
    { apply Z.leb_le. lia. }
    reflexivity.
Qed.

End AtoiRoundTrip.

(** X16.  A decimal numeral sent as the [id] parameter comes back as
    its number.  For every integer in the range of [int], a request
    whose [id] is its decimal numeral is displayed with that very number
    when the number is at least 1, and is answered [http.NotFound]
    when it is 0 or negative. *)
Theorem snippetView_reads_decimal_numerals (w : Http.ResponseWriter)
    (r : Request) (z : Z) :
  Strconv.minInt <= z <= Strconv.maxInt ->
  QueryGet (URLQuery r) "id" = pretty z ->
  Strconv.Atoi (pretty z) = (z, None)
  /\ Handlers.snippetView w r
     = if z <? 1 then Http.NotFound w
       else Http.Write (Handlers.snippetViewText z) w.
Proof.
  intros Hrange Hid.
  pose proof (Atoi_pretty z Hrange) as Hparse.
  split; [exact Hparse|].
  unfold Handlers.snippetView. rewrite Hid, Hparse.
  rewrite bool_decide_eq_false_2 by (intros H; apply H; reflexivity).
  reflexivity.
Qed.

Lemma snippetView_reads_decimal_numerals_witness :
  Http.body (Handlers.snippetView Http.newResponseWriter
               (mkRequest "GET" "/snippet/view"
                  [("id", "9223372036854775807")] [] ""))
  = "Display a specific snippet with ID %d...9223372036854775807".
Proof.
  destruct (snippetView_reads_decimal_numerals Http.newResponseWriter
              (mkRequest "GET" "/snippet/view"
                 [("id", "9223372036854775807")] [] "")
              9223372036854775807) as [_ ->].
  - vm_compute. split; discriminate.
  - reflexivity.
  - reflexivity.
Defined.

